(** * Profile store of the gaming platform: [src/lib/userManager.ts]

    A shallow embedding of the [UserManager] class and the properties of
    its progression, achievement and leaderboard logic.

    Numbers.  The source works on JavaScript numbers, which are IEEE
    binary64 doubles.  Scores, play times, counters, experience and
    level hold integers; they are [Z], and [Math.floor (x / d)] for a
    positive integer [d] is [Z.div], which rounds towards minus infinity
    as [Math.floor] does.  The sums, comparisons and floored quotients of
    the source are exact on integers of absolute value at most 2^53
    ([safeInteger]), so that on this range the code computes what [Z]
    computes; beyond it the code rounds (in doubles 2^53 + 1 is 2^53).  The
    running mean [averageScore] is not an integer: it is a double
    ([Double.t]), computed with the binary64 operations of the Standard
    Library's [SpecFloat], rounding included.

    Time.  [new Date ()] and [Date.now ()] read a clock; every operation
    that reads it takes the instant as an argument [now], a number of
    milliseconds, and all reads inside one synchronous call see that same
    instant.

    Storage.  [localStorage] holds at most one record under the fixed key;
    the stored JSON text is modelled by the profile it serialises.  A
    write may throw (the source catches and logs): the outcome of the
    write is an argument [writeOk] of the operations that save. *)

From Stdlib Require Import ZArith QArith Lia Bool.
From Stdlib Require Import SpecFloat.
From Stdlib Require Import DecimalString.
From stdpp Require Import base list sorting strings gmap.

Local Open Scope Z_scope.

(** ** Doubles *)

(** IEEE binary64 with round to nearest, ties to even: the arithmetic of
    JavaScript numbers. *)
Module Double.
Definition prec : Z := 53.
Definition emax : Z := 1024.
Definition t : Type := spec_float.

(** The number an integer literal or an integer-valued field denotes:
    the integer itself up to 2^53 in absolute value, the nearest double
    beyond. *)
Definition ofZ (z : Z) : t := binary_normalize prec emax z 0 false.

Definition add (x y : t) : t := SFadd prec emax x y.
Definition mul (x y : t) : t := SFmul prec emax x y.
Definition div (x y : t) : t := SFdiv prec emax x y.

(** The rational a finite double stands for. *)
Definition value (x : t) : option Q :=
  match x with
  | S754_zero _ => Some 0%Q
  | S754_finite sign m e =>
      Some ((if sign then - inject_Z (Zpos m) else inject_Z (Zpos m)) * 2 ^ e)%Q
  | S754_infinity _ | S754_nan => None
  end.
End Double.

(** ** Data model *)

Module Achievement.
Record t : Type := mk {
  id : string;
  name : string;
  description : string;
  icon : string;
  unlocked : bool;
  unlockedAt : option Z
}.

(** [achievement.unlocked = true; achievement.unlockedAt = new Date ()] *)
Definition unlock (now : Z) (a : t) : t :=
  mk (id a) (name a) (description a) (icon a) true (Some now).
End Achievement.

Module GameStats.
Record t : Type := mk {
  gamesPlayed : Z;
  totalPlayTime : Z;
  highScore : Z;
  averageScore : Double.t;
  achievements : list Achievement.t;
  lastPlayed : option Z
}.
End GameStats.

(** [keyof UserProfile['gameStats']], in the order the object literal of
    [createUser] lists the keys (the order of [Object.values]). *)
Inductive GameKind : Type := snake | tetris | pong | memory | platformer.

Definition all_kinds : list GameKind := [snake; tetris; pong; memory; platformer].

#[global] Instance GameKind_eq_dec : EqDecision GameKind.
Proof. solve_decision. Defined.

Definition GameKind_name (g : GameKind) : string :=
  match g with
  | snake => "snake"
  | tetris => "tetris"
  | pong => "pong"
  | memory => "memory"
  | platformer => "platformer"
  end.

Module GameStatsTable.
Record t : Type := mk {
  snake : GameStats.t;
  tetris : GameStats.t;
  pong : GameStats.t;
  memory : GameStats.t;
  platformer : GameStats.t
}.
End GameStatsTable.

(** [table[game]] *)
Definition stats_get (g : GameKind) (t : GameStatsTable.t) : GameStats.t :=
  match g with
  | snake => GameStatsTable.snake t
  | tetris => GameStatsTable.tetris t
  | pong => GameStatsTable.pong t
  | memory => GameStatsTable.memory t
  | platformer => GameStatsTable.platformer t
  end.

(** The table after the object [table[game]] has been mutated into [s]. *)
Definition stats_set (g : GameKind) (s : GameStats.t) (t : GameStatsTable.t)
  : GameStatsTable.t :=
  match g with
  | snake => GameStatsTable.mk s (GameStatsTable.tetris t) (GameStatsTable.pong t)
               (GameStatsTable.memory t) (GameStatsTable.platformer t)
  | tetris => GameStatsTable.mk (GameStatsTable.snake t) s (GameStatsTable.pong t)
               (GameStatsTable.memory t) (GameStatsTable.platformer t)
  | pong => GameStatsTable.mk (GameStatsTable.snake t) (GameStatsTable.tetris t) s
               (GameStatsTable.memory t) (GameStatsTable.platformer t)
  | memory => GameStatsTable.mk (GameStatsTable.snake t) (GameStatsTable.tetris t)
               (GameStatsTable.pong t) s (GameStatsTable.platformer t)
  | platformer => GameStatsTable.mk (GameStatsTable.snake t) (GameStatsTable.tetris t)
               (GameStatsTable.pong t) (GameStatsTable.memory t) s
  end.

(** [Object.values (table)] *)
Definition stats_values (t : GameStatsTable.t) : list GameStats.t :=
  map (fun g => stats_get g t) all_kinds.

Module UserProfile.
Record t : Type := mk {
  id : string;
  username : string;
  avatar : string;
  level : Z;
  experience : Z;
  totalGamesPlayed : Z;
  totalPlayTime : Z;
  joinDate : Z;
  gameStats : GameStatsTable.t;
  globalAchievements : list Achievement.t
}.
End UserProfile.

(** The singleton: the in-memory profile, whether a [window] exists, and
    the record kept in [localStorage] under [STORAGE_KEY]. *)
Module Store.
Record t : Type := mk {
  currentUser : option UserProfile.t;
  hasWindow : bool;
  localStorage : option UserProfile.t
}.
End Store.

(** ** Operations *)

Definition getDefaultGameStats : GameStats.t :=
  GameStats.mk 0 0 0 (Double.ofZ 0) [] None.

Definition getDefaultAchievements : list Achievement.t :=
  [ Achievement.mk "first_game" "First Steps" "Play your first game" "🎮" false None;
    Achievement.mk "speed_demon" "Speed Demon" "Score 1000+ points in Snake" "⚡" false None;
    Achievement.mk "tetris_master" "Tetris Master" "Clear 10 lines in Tetris" "🧱" false None;
    Achievement.mk "memory_champion" "Memory Champion"
      "Complete Memory game in under 30 seconds" "🧠" false None;
    Achievement.mk "platformer_pro" "Platformer Pro" "Reach level 5 in Platformer" "🏃" false None;
    Achievement.mk "pong_champion" "Pong Champion" "Score 10 points in Pong" "🏓" false None;
    Achievement.mk "dedicated_player" "Dedicated Player" "Play for 1 hour total" "⏰" false None;
    Achievement.mk "game_master" "Game Master" "Play all 5 games" "👑" false None ].

(** Decimal text of a number, as a template literal prints an integer. *)
Definition Z_to_string (z : Z) : string := NilZero.string_of_int (Z.to_int z).

(** [saveUser]: writes the current profile when there is a window and a
    profile; a failed write is caught and leaves the storage as it was. *)
Definition saveUser (writeOk : bool) (m : Store.t) : Store.t :=
  match Store.currentUser m with
  | Some u =>
      if Store.hasWindow m && writeOk
      then Store.mk (Some u) (Store.hasWindow m) (Some u)
      else m
  | None => m
  end.

(** The record [createUser] builds before it installs and saves it. *)
Definition newUser (username : string) (now : Z) : UserProfile.t :=
  UserProfile.mk ("user_" +:+ Z_to_string now) username "🎮" 1 0 0 0 now
    (GameStatsTable.mk getDefaultGameStats getDefaultGameStats getDefaultGameStats
       getDefaultGameStats getDefaultGameStats)
    getDefaultAchievements.

Definition createUser (username : string) (now : Z) (writeOk : bool) (m : Store.t)
  : Store.t * UserProfile.t :=
  let u := newUser username now in
  (saveUser writeOk (Store.mk (Some u) (Store.hasWindow m) (Store.localStorage m)), u).

Definition getCurrentUser (m : Store.t) : option UserProfile.t := Store.currentUser m.

Definition logout (m : Store.t) : Store.t :=
  Store.mk None (Store.hasWindow m)
    (if Store.hasWindow m then None else Store.localStorage m).

(** *** Achievements *)

(** [achievements.find (a => a.id === achievementId)], with the position
    of the element found, so that the mutation of the element found can
    be written as an update of the array at that position. *)
Definition findAchievement (achievementId : string) (l : list Achievement.t)
  : option (nat * Achievement.t) :=
  list_find (fun a => Achievement.id a = achievementId) l.

Definition unlockIn (achievementId : string) (now : Z) (l : list Achievement.t)
  : list Achievement.t :=
  match findAchievement achievementId l with
  | Some (i, a) =>
      if Achievement.unlocked a then l else <[ i := Achievement.unlock now a ]> l
  | None => l
  end.

Definition set_globalAchievements (l : list Achievement.t) (u : UserProfile.t)
  : UserProfile.t :=
  UserProfile.mk (UserProfile.id u) (UserProfile.username u) (UserProfile.avatar u)
    (UserProfile.level u) (UserProfile.experience u) (UserProfile.totalGamesPlayed u)
    (UserProfile.totalPlayTime u) (UserProfile.joinDate u) (UserProfile.gameStats u) l.

(** [unlockAchievement] and [checkAchievements] are private and are only
    entered from [updateGameStats], behind its test of [this.currentUser]:
    they are written on the profile that test found. *)
Definition unlockAchievement (achievementId : string) (now : Z) (u : UserProfile.t)
  : UserProfile.t :=
  set_globalAchievements (unlockIn achievementId now (UserProfile.globalAchievements u)) u.

(** [Object.values (gameStats).filter (stats => stats.gamesPlayed > 0).length] *)
Definition kindsPlayed (u : UserProfile.t) : nat :=
  length (filter (fun s => 0 < GameStats.gamesPlayed s)
            (stats_values (UserProfile.gameStats u))).

Definition checkAchievements (game : GameKind) (score playTime now : Z)
  (u : UserProfile.t) : UserProfile.t :=
  let u1 :=
    if UserProfile.totalGamesPlayed u =? 1
    then unlockAchievement "first_game" now u else u in
  let u2 :=
    match game with
    | snake => if 1000 <=? score then unlockAchievement "speed_demon" now u1 else u1
    | tetris => if 1000 <=? score then unlockAchievement "tetris_master" now u1 else u1
    | pong => if 10 <=? score then unlockAchievement "pong_champion" now u1 else u1
    | memory => if playTime <=? 30 then unlockAchievement "memory_champion" now u1 else u1
    | platformer => if 5000 <=? score then unlockAchievement "platformer_pro" now u1 else u1
    end in
  let u3 :=
    if 3600 <=? UserProfile.totalPlayTime u2
    then unlockAchievement "dedicated_player" now u2 else u2 in
  if Nat.eqb (kindsPlayed u3) 5
  then unlockAchievement "game_master" now u3 else u3.

(** *** Recording a session *)

(** Line 171: the mean after a call, from the mean before, the counter
    already incremented and the score, in double arithmetic:
    [(averageScore * (gamesPlayed - 1) + score) / gamesPlayed]. *)
Definition nextAverage (averageScore : Double.t) (gamesPlayed score : Z) : Double.t :=
  Double.div
    (Double.add (Double.mul averageScore (Double.ofZ (gamesPlayed - 1)))
       (Double.ofZ score))
    (Double.ofZ gamesPlayed).

(** The mutations of [gameStats[game]], lines 163 to 171 of the source, in
    order: the counter and the play time, the date, the high score, and
    the mean, which reads the counter already incremented. *)
Definition updateStats (score playTime now : Z) (s : GameStats.t) : GameStats.t :=
  let gamesPlayed := GameStats.gamesPlayed s + 1 in
  let totalPlayTime := GameStats.totalPlayTime s + playTime in
  let highScore :=
    if GameStats.highScore s <? score then score else GameStats.highScore s in
  let averageScore := nextAverage (GameStats.averageScore s) gamesPlayed score in
  GameStats.mk gamesPlayed totalPlayTime highScore averageScore
    (GameStats.achievements s) (Some now).

(** [Math.floor (score / 10) + Math.floor (playTime / 60)] *)
Definition experienceGain (score playTime : Z) : Z := score / 10 + playTime / 60.

(** Lines 162 to 183: what [updateGameStats] does to the profile. *)
Definition updateProfile (game : GameKind) (score playTime now : Z)
  (u : UserProfile.t) : UserProfile.t :=
  let gameStats :=
    stats_set game (updateStats score playTime now (stats_get game (UserProfile.gameStats u)))
      (UserProfile.gameStats u) in
  let totalGamesPlayed := UserProfile.totalGamesPlayed u + 1 in
  let totalPlayTime := UserProfile.totalPlayTime u + playTime in
  let experience := UserProfile.experience u + experienceGain score playTime in
  let newLevel := experience / 100 + 1 in
  let level := if UserProfile.level u <? newLevel then newLevel else UserProfile.level u in
  checkAchievements game score playTime now
    (UserProfile.mk (UserProfile.id u) (UserProfile.username u) (UserProfile.avatar u)
       level experience totalGamesPlayed totalPlayTime (UserProfile.joinDate u)
       gameStats (UserProfile.globalAchievements u)).

Definition updateGameStats (game : GameKind) (score playTime now : Z) (writeOk : bool)
  (m : Store.t) : Store.t :=
  match Store.currentUser m with
  | None => m
  | Some u =>
      saveUser writeOk
        (Store.mk (Some (updateProfile game score playTime now u))
           (Store.hasWindow m) (Store.localStorage m))
  end.

(** One call of [updateGameStats] with what it reads from its
    environment, and a run of such calls. *)
Module Session.
Record t : Type := mk {
  game : GameKind;
  score : Z;
  playTime : Z;
  now : Z;
  writeOk : bool
}.
End Session.

Definition record (c : Session.t) (m : Store.t) : Store.t :=
  updateGameStats (Session.game c) (Session.score c) (Session.playTime c)
    (Session.now c) (Session.writeOk c) m.

Definition recordAll (cs : list Session.t) (m : Store.t) : Store.t :=
  fold_left (fun m c => record c m) cs m.

Definition recordProfile (c : Session.t) (u : UserProfile.t) : UserProfile.t :=
  updateProfile (Session.game c) (Session.score c) (Session.playTime c) (Session.now c) u.

(** *** Leaderboard *)

Module Entry.
Record t : Type := mk {
  username : string;
  score : Z;
  game : option string
}.
End Entry.

Definition mockData : list Entry.t :=
  [ Entry.mk "ProGamer123" 1250 (Some "snake");
    Entry.mk "TetrisKing" 2500 (Some "tetris");
    Entry.mk "MemoryMaster" 15 (Some "memory");
    Entry.mk "PongChamp" 15 (Some "pong");
    Entry.mk "JumpHero" 8500 (Some "platformer") ].

(** [Array.prototype.sort] with a comparator.  The language fixes the
    sort to be stable and leaves the algorithm open; for a comparator that
    is a total preorder the stable result is unique, and it is computed
    here by insertion: an element goes before the first later element that
    the comparator does not put strictly before it. *)
Section Sort.
Context {A : Type} (compareFn : A -> A -> Z).

Fixpoint sort_insert (x : A) (l : list A) : list A :=
  match l with
  | [] => [x]
  | y :: r => if compareFn x y <=? 0 then x :: y :: r else y :: sort_insert x r
  end.

Fixpoint array_sort (l : list A) : list A :=
  match l with
  | [] => []
  | x :: r => sort_insert x (array_sort r)
  end.
End Sort.

(** The comparator of [getLeaderboard]: [(a, b) => b.score - a.score]. *)
Definition byScore (a b : Entry.t) : Z := Entry.score b - Entry.score a.

(** [mockData] after the conditional [push]. *)
Definition leaderboardEntries (game : option GameKind) (m : Store.t) : list Entry.t :=
  match Store.currentUser m, game with
  | Some u, Some g =>
      let userScore := GameStats.highScore (stats_get g (UserProfile.gameStats u)) in
      if 0 <? userScore
      then mockData ++ [Entry.mk (UserProfile.username u) userScore (Some (GameKind_name g))]
      else mockData
  | _, _ => mockData
  end.

Definition getLeaderboard (game : option GameKind) (m : Store.t) : list Entry.t :=
  take 10 (array_sort byScore (leaderboardEntries game m)).

(** ** Vocabulary of the properties *)

(** The profile of the store after a run of calls, when there is one. *)
Definition profileAfter (cs : list Session.t) (u : UserProfile.t) : UserProfile.t :=
  fold_left (fun u c => recordProfile c u) cs u.

(** The store right after [createUser]. *)
Definition created (username : string) (now : Z) (writeOk : bool) (m : Store.t)
  : Store.t :=
  fst (createUser username now writeOk m).

(** The scores reported for one game kind in a run of calls, in order. *)
Definition scoresOf (g : GameKind) (cs : list Session.t) : list Z :=
  map Session.score (filter (fun c => Session.game c = g) cs).

(** The greatest element of the non-empty list [s :: l]. *)
Definition maximum (s : Z) (l : list Z) : Z := fold_left Z.max l s.

Definition sumZ (l : list Z) : Z := fold_right Z.add 0 l.





(** The integers on which the arithmetic of doubles is exact. *)
Definition safeInteger (z : Z) : Prop := - 2 ^ 53 <= z <= 2 ^ 53.

Definition statsOf (g : GameKind) (u : UserProfile.t) : GameStats.t :=
  stats_get g (UserProfile.gameStats u).

(** Whether the first achievement with this id is unlocked. *)
Definition isUnlocked (achievementId : string) (u : UserProfile.t) : bool :=
  match findAchievement achievementId (UserProfile.globalAchievements u) with
  | Some (_, a) => Achievement.unlocked a
  | None => false
  end.

(** When the first achievement with this id was unlocked. *)
Definition unlockedAtOf (achievementId : string) (u : UserProfile.t) : option Z :=
  match findAchievement achievementId (UserProfile.globalAchievements u) with
  | Some (_, a) => Achievement.unlockedAt a
  | None => None
  end.

(** What one call may do to the achievement array: every position keeps
    its element, or holds a locked one that the call unlocks at [now]. *)
Definition unlockStep (now : Z) (l l' : list Achievement.t) : Prop :=
  forall i a, l !! i = Some a ->
    l' !! i = Some a \/
    (Achievement.unlocked a = false /\ l' !! i = Some (Achievement.unlock now a)).

(** Descending by score. *)
Definition scoreGe (a b : Entry.t) : Prop := Entry.score b <= Entry.score a.

(** The entry [getLeaderboard] pushes for the active profile, if any. *)
Definition userEntry (game : option GameKind) (m : Store.t) : list Entry.t :=
  match getCurrentUser m, game with
  | Some u, Some g =>
      if 0 <? GameStats.highScore (statsOf g u)
      then [Entry.mk (UserProfile.username u) (GameStats.highScore (statsOf g u))
              (Some (GameKind_name g))]
      else []
  | _, _ => []
  end.

(** The entries of a list that carry a given score, in order. *)
Definition withScore (s : Z) (l : list Entry.t) : list Entry.t :=
  filter (fun e => Entry.score e = s) l.

(** ** The rest of the profile store *)

(** [loadUser]: adopts the stored record, if there is one.  The storage
    of this model holds only records that [saveUser] wrote, and those
    parse back to the profile they were taken from (the dates go through
    their ISO text); a record that does not parse, which the source
    catches and ignores, is not represented. *)
Definition loadUser (m : Store.t) : Store.t :=
  match Store.localStorage m with
  | Some u => Store.mk (Some u) (Store.hasWindow m) (Store.localStorage m)
  | None => m
  end.

(** The private constructor: no profile, and a load when there is a
    [window]. *)
Definition construct (hasWindow : bool) (stored : option UserProfile.t) : Store.t :=
  let m := Store.mk None hasWindow stored in
  if hasWindow then loadUser m else m.

(** The public operations that change the store, and runs of them. *)
Inductive Op : Type :=
| OpCreate (username : string) (now : Z) (writeOk : bool)
| OpRecord (c : Session.t)
| OpLogout.

Definition perform (o : Op) (m : Store.t) : Store.t :=
  match o with
  | OpCreate username now writeOk => fst (createUser username now writeOk m)
  | OpRecord c => record c m
  | OpLogout => logout m
  end.

Definition performAll (os : list Op) (m : Store.t) : Store.t :=
  fold_left (fun m o => perform o m) os m.

(** An operation without the outcome of its write. *)
Definition forgetWrite (o : Op) : Op :=
  match o with
  | OpCreate username now _ => OpCreate username now true
  | OpRecord c =>
      OpRecord (Session.mk (Session.game c) (Session.score c) (Session.playTime c)
                  (Session.now c) true)
  | OpLogout => OpLogout
  end.

(** Whether every write of a run succeeds. *)
Definition writesOk (o : Op) : bool :=
  match o with
  | OpCreate _ _ w => w
  | OpRecord c => Session.writeOk c
  | OpLogout => true
  end.

(** ** The game engine helpers: [src/lib/gameEngine.ts]

    The geometry tests and [clamp] only add and compare numbers.  They
    are modelled on integer coordinates (a pixel or cell grid).  The
    comparisons of the code are exact on all of them; its sums [x + width]
    and [y + height] are exact when the terms and the sum are safe
    integers ([safeRect]), and round beyond. *)

Module Point.
Record t : Type := mk { x : Z; y : Z }.
End Point.

Module Rect.
Record t : Type := mk { x : Z; y : Z; width : Z; height : Z }.
End Rect.

Module CollisionDetector.
Definition pointInRect (point : Point.t) (rect : Rect.t) : bool :=
  (Rect.x rect <=? Point.x point)
  && (Point.x point <=? Rect.x rect + Rect.width rect)
  && (Rect.y rect <=? Point.y point)
  && (Point.y point <=? Rect.y rect + Rect.height rect).

Definition rectIntersect (rect1 rect2 : Rect.t) : bool :=
  (Rect.x rect1 <? Rect.x rect2 + Rect.width rect2)
  && (Rect.x rect2 <? Rect.x rect1 + Rect.width rect1)
  && (Rect.y rect1 <? Rect.y rect2 + Rect.height rect2)
  && (Rect.y rect2 <? Rect.y rect1 + Rect.height rect1).
End CollisionDetector.

Module Utils.
(** [Math.max (min, Math.min (max, value))] *)
Definition clamp (value min max : Z) : Z := Z.max min (Z.min max value).
End Utils.

(** [InputManager]: the set of key codes held and the map of active
    touches.  A [Map] keeps its keys in insertion order, and [set] on a
    key that is present replaces the value where it stands; the map is an
    association list with these two operations. *)
Module Touch.
Record t : Type := mk { identifier : Z; clientX : Z; clientY : Z }.
End Touch.

Module InputManager.
Record t : Type := mk {
  keys : gset string;
  touches : list (Z * Point.t)
}.

(** The state the constructor leaves. *)
Definition create : t := mk ∅ [].

(** [Map.prototype.set] *)
Fixpoint map_set (k : Z) (v : Point.t) (l : list (Z * Point.t)) : list (Z * Point.t) :=
  match l with
  | [] => [(k, v)]
  | (k', v') :: r => if decide (k' = k) then (k, v) :: r else (k', v') :: map_set k v r
  end.

(** [Map.prototype.delete] *)
Definition map_delete (k : Z) (l : list (Z * Point.t)) : list (Z * Point.t) :=
  filter (fun kv => kv.1 <> k) l.

(** What the handlers and [clear] react to.  A touch event carries its
    [changedTouches]; [touchstart] also reads the canvas rectangle, of
    which it uses the left and top coordinates. *)
Inductive Event : Type :=
| KeyDown (code : string)
| KeyUp (code : string)
| TouchStart (rectLeft rectTop : Z) (changedTouches : list Touch.t)
| TouchEnd (changedTouches : list Touch.t)
| Clear.

Definition handle (e : Event) (s : t) : t :=
  match e with
  | KeyDown code => mk ({[ code ]} ∪ keys s) (touches s)
  | KeyUp code => mk (keys s ∖ {[ code ]}) (touches s)
  | TouchStart rectLeft rectTop changedTouches =>
      mk (keys s)
        (fold_left
           (fun m touch =>
              map_set (Touch.identifier touch)
                (Point.mk (Touch.clientX touch - rectLeft) (Touch.clientY touch - rectTop)) m)
           changedTouches (touches s))
  | TouchEnd changedTouches =>
      mk (keys s)
        (fold_left (fun m touch => map_delete (Touch.identifier touch) m)
           changedTouches (touches s))
  | Clear => mk ∅ []
  end.

Definition handleAll (es : list Event) (s : t) : t :=
  fold_left (fun s e => handle e s) es s.

Definition isKeyPressed (key : string) (s : t) : bool := bool_decide (key ∈ keys s).

(** [Array.from (this.touches.values ())] *)
Definition getTouches (s : t) : list Point.t := map snd (touches s).

(** Whether an event can change the state of the key [key]. *)
Definition concerns (key : string) (e : Event) : bool :=
  match e with
  | KeyDown code | KeyUp code => bool_decide (code = key)
  | Clear => true
  | TouchStart _ _ _ | TouchEnd _ => false
  end.

Definition isKeyDown (e : Event) : bool :=
  match e with KeyDown _ => true | _ => false end.

(** The identifiers of the active touches, in the order of the map. *)
Definition activeIds (s : t) : list Z := map fst (touches s).
End InputManager.

(** ** More vocabulary *)

(** A rectangle whose coordinates, sizes and far edges are safe integers:
    the sums of [pointInRect] and [rectIntersect] are exact on it. *)
Definition safeRect (r : Rect.t) : Prop :=
  safeInteger (Rect.x r) /\ safeInteger (Rect.width r) /\
  safeInteger (Rect.x r + Rect.width r) /\
  safeInteger (Rect.y r) /\ safeInteger (Rect.height r) /\
  safeInteger (Rect.y r + Rect.height r).

(** A quantity of the per-game statistics, summed over the five kinds. *)
Definition overKinds (f : GameStats.t -> Z) (u : UserProfile.t) : Z :=
  sumZ (map (fun g => f (statsOf g u)) all_kinds).

(** The fields of an achievement that define it. *)
Definition definition_of (a : Achievement.t) : string * string * string * string :=
  (Achievement.id a, Achievement.name a, Achievement.description a, Achievement.icon a).

(** [a] after a test of [checkAchievements] whose condition is [b]. *)
Definition unlockIf (b : bool) (now : Z) (a : Achievement.t) : Achievement.t :=
  if b && negb (Achievement.unlocked a) then Achievement.unlock now a else a.

(** Whether a call for game [g] with the given score and play time makes
    [checkAchievements] ask for the achievement [aid], on the profile as
    the call has updated it. *)
Definition triggered (aid : string) (g : GameKind) (score playTime : Z)
  (u : UserProfile.t) : bool :=
  (String.eqb aid "first_game" && (UserProfile.totalGamesPlayed u =? 1))
  || match g with
     | snake => String.eqb aid "speed_demon" && (1000 <=? score)
     | tetris => String.eqb aid "tetris_master" && (1000 <=? score)
     | pong => String.eqb aid "pong_champion" && (10 <=? score)
     | memory => String.eqb aid "memory_champion" && (playTime <=? 30)
     | platformer => String.eqb aid "platformer_pro" && (5000 <=? score)
     end
  || (String.eqb aid "dedicated_player" && (3600 <=? UserProfile.totalPlayTime u))
  || (String.eqb aid "game_master" && Nat.eqb (kindsPlayed u) 5).

(** The experience a run of calls brings. *)
Definition gains (cs : list Session.t) : Z :=
  sumZ (map (fun c => experienceGain (Session.score c) (Session.playTime c)) cs).

Definition playTimes (cs : list Session.t) : Z := sumZ (map Session.playTime cs).

(** The times of the calls made for one game kind in a run, in order. *)
Definition timesOf (g : GameKind) (cs : list Session.t) : list Z :=
  map Session.now (filter (fun c => Session.game c = g) cs).

(** ** Proofs *)

(** Closed instances of [safeInteger] and [safeRect], by evaluation. *)
Ltac safe_by_evaluation :=
  unfold safeRect, safeInteger; repeat split; vm_compute; discriminate.

(** *** The store and the profile in it *)

Lemma saveUser_current (w : bool) (m : Store.t) :
  Store.currentUser (saveUser w m) = Store.currentUser m.
Proof.
  unfold saveUser. destruct (Store.currentUser m) eqn:E; [|done].
  destruct (Store.hasWindow m && w); simpl; congruence.
Qed.

Lemma created_current (username : string) (now : Z) (w : bool) (m : Store.t) :
  Store.currentUser (created username now w m) = Some (newUser username now).
Proof. unfold created, createUser. simpl. by rewrite saveUser_current. Qed.

Lemma record_current (c : Session.t) (m : Store.t) (u : UserProfile.t) :
  Store.currentUser m = Some u ->
  Store.currentUser (record c m) = Some (recordProfile c u).
Proof.
  intros E. unfold record, updateGameStats. rewrite E.
  by rewrite saveUser_current.
Qed.

Lemma recordAll_current (cs : list Session.t) (m : Store.t) (u : UserProfile.t) :
  Store.currentUser m = Some u ->
  Store.currentUser (recordAll cs m) = Some (profileAfter cs u).
Proof.
  revert m u. induction cs as [|c cs IH]; intros m u E; simpl; [done|].
  apply IH. by apply record_current.
Qed.

Lemma profileAfter_snoc (cs : list Session.t) (c : Session.t) (u : UserProfile.t) :
  profileAfter (cs ++ [c]) u = recordProfile c (profileAfter cs u).
Proof. unfold profileAfter. by rewrite fold_left_app. Qed.

(** *** What the achievement pass leaves alone *)

Lemma checkAchievements_only_list (g : GameKind) (s p now : Z) (u : UserProfile.t) :
  checkAchievements g s p now u =
  set_globalAchievements
    (UserProfile.globalAchievements (checkAchievements g s p now u)) u.
Proof.
  unfold checkAchievements, unlockAchievement.
  destruct u; repeat case_match; reflexivity.
Qed.

Lemma updateProfile_gameStats (g : GameKind) (s p now : Z) (u : UserProfile.t) :
  UserProfile.gameStats (updateProfile g s p now u) =
  stats_set g (updateStats s p now (statsOf g u)) (UserProfile.gameStats u).
Proof. unfold updateProfile. by rewrite checkAchievements_only_list. Qed.

Lemma updateProfile_experience (g : GameKind) (s p now : Z) (u : UserProfile.t) :
  UserProfile.experience (updateProfile g s p now u) =
  UserProfile.experience u + experienceGain s p.
Proof. unfold updateProfile. by rewrite checkAchievements_only_list. Qed.

Lemma updateProfile_level (g : GameKind) (s p now : Z) (u : UserProfile.t) :
  UserProfile.level (updateProfile g s p now u) =
  let newLevel := UserProfile.experience (updateProfile g s p now u) / 100 + 1 in
  if UserProfile.level u <? newLevel then newLevel else UserProfile.level u.
Proof.
  cbv zeta. rewrite updateProfile_experience.
  unfold updateProfile. by rewrite checkAchievements_only_list.
Qed.

Lemma stats_get_set_eq (g : GameKind) (s : GameStats.t) (t : GameStatsTable.t) :
  stats_get g (stats_set g s t) = s.
Proof. by destruct g. Qed.

Lemma stats_get_set_ne (g g' : GameKind) (s : GameStats.t) (t : GameStatsTable.t) :
  g <> g' -> stats_get g' (stats_set g s t) = stats_get g' t.
Proof. by destruct g, g'. Qed.

(** The statistics of a game kind after one call: updated when the call is
    for that kind, untouched otherwise. *)
Lemma statsOf_record (g : GameKind) (c : Session.t) (u : UserProfile.t) :
  statsOf g (recordProfile c u) =
  if decide (Session.game c = g)
  then updateStats (Session.score c) (Session.playTime c) (Session.now c) (statsOf g u)
  else statsOf g u.
Proof.
  unfold statsOf, recordProfile. rewrite updateProfile_gameStats.
  case_decide as E.
  - subst g. by rewrite stats_get_set_eq.
  - by rewrite stats_get_set_ne.
Qed.

(** *** C1: the scenario of the first session *)

(** C1.  From any store, [createUser "Ada"] gives a profile at level 1
    with no experience, zeroed statistics and every achievement locked;
    one [updateGameStats snake 1200 45] then leaves a profile whose snake
    statistics have high score 1200 and one game played, whose
    achievements [first_game] and [speed_demon] are unlocked, whose
    experience is 120 and whose level is 2. *)
Theorem scenario_first_session (m0 : Store.t) (t0 t1 : Z) (w0 w1 : bool) :
  let m1 := created "Ada" t0 w0 m0 in
  let m2 := updateGameStats snake 1200 45 t1 w1 m1 in
  (exists u1, getCurrentUser m1 = Some u1 /\
     UserProfile.username u1 = "Ada" /\
     UserProfile.level u1 = 1 /\ UserProfile.experience u1 = 0 /\
     (forall g, statsOf g u1 = getDefaultGameStats) /\
     Forall (fun a => Achievement.unlocked a = false) (UserProfile.globalAchievements u1)) /\
  (exists u2, getCurrentUser m2 = Some u2 /\
     GameStats.highScore (statsOf snake u2) = 1200 /\
     GameStats.gamesPlayed (statsOf snake u2) = 1 /\
     isUnlocked "first_game" u2 = true /\
     isUnlocked "speed_demon" u2 = true /\
     UserProfile.experience u2 = 120 /\
     UserProfile.level u2 = 2).
Proof.
  intros m1 m2. split.
  - exists (newUser "Ada" t0). unfold getCurrentUser, m1.
    rewrite created_current. split_and!; try reflexivity.
    + by intros [].
    + repeat constructor.
  - exists (updateProfile snake 1200 45 t1 (newUser "Ada" t0)).
    unfold getCurrentUser, m2, updateGameStats, m1.
    rewrite created_current, saveUser_current. split_and!; reflexivity.
Qed.

(** *** C8: no profile, no effect *)

(** C8.  With no active profile, [updateGameStats] returns the store it
    was given, whatever its arguments: the in-memory profile and the
    stored record are as before, and [getCurrentUser] is still [None].
    The function is total: there is no input on which it fails. *)
Theorem record_without_profile_noop
  (m : Store.t) (g : GameKind) (score playTime now : Z) (w : bool) :
  getCurrentUser m = None ->
  updateGameStats g score playTime now w m = m /\
  Store.localStorage (updateGameStats g score playTime now w m) = Store.localStorage m /\
  getCurrentUser (updateGameStats g score playTime now w m) = None.
Proof.
  unfold getCurrentUser, updateGameStats. intros E. rewrite E. by rewrite E.
Qed.

Lemma record_without_profile_noop_witness :
  let m := logout (created "Ada" 1 true (Store.mk None true None)) in
  getCurrentUser m = None /\
  updateGameStats pong (-3) 70 2 true m = m /\
  Store.localStorage (updateGameStats pong (-3) 70 2 true m) = Store.localStorage m /\
  getCurrentUser (updateGameStats pong (-3) 70 2 true m) = None.
Proof.
  split; [reflexivity|].
  apply (record_without_profile_noop _ pong (-3) 70 2 true). reflexivity.
Defined.

(** *** High score and games played over a run *)

Lemma scoresOf_cons (g : GameKind) (c : Session.t) (cs : list Session.t) :
  scoresOf g (c :: cs) =
  if decide (Session.game c = g) then Session.score c :: scoresOf g cs
  else scoresOf g cs.
Proof. unfold scoresOf. rewrite filter_cons. by case_decide. Qed.

Lemma updateStats_highScore (s p now : Z) (st : GameStats.t) :
  GameStats.highScore (updateStats s p now st) = Z.max (GameStats.highScore st) s.
Proof.
  simpl. destruct (Z.ltb_spec (GameStats.highScore st) s); lia.
Qed.

(** A stored high score only moves to a strictly greater reported score. *)
Lemma updateStats_highScore_cases (s p now : Z) (st : GameStats.t) :
  GameStats.highScore (updateStats s p now st) = GameStats.highScore st \/
  (GameStats.highScore st < s /\ GameStats.highScore (updateStats s p now st) = s).
Proof.
  simpl. destruct (Z.ltb_spec (GameStats.highScore st) s); [right|left]; done.
Qed.

Lemma highScore_after (g : GameKind) (cs : list Session.t) (u : UserProfile.t) :
  GameStats.highScore (statsOf g (profileAfter cs u)) =
  maximum (GameStats.highScore (statsOf g u)) (scoresOf g cs).
Proof.
  revert u. induction cs as [|c cs IH]; intros u; [done|].
  change (profileAfter (c :: cs) u) with (profileAfter cs (recordProfile c u)).
  rewrite IH, scoresOf_cons, statsOf_record.
  case_decide; [|done]. by rewrite updateStats_highScore.
Qed.

Lemma gamesPlayed_after (g : GameKind) (cs : list Session.t) (u : UserProfile.t) :
  GameStats.gamesPlayed (statsOf g (profileAfter cs u)) =
  GameStats.gamesPlayed (statsOf g u) + Z.of_nat (length (scoresOf g cs)).
Proof.
  revert u. induction cs as [|c cs IH]; intros u; [simpl; lia|].
  change (profileAfter (c :: cs) u) with (profileAfter cs (recordProfile c u)).
  rewrite IH, scoresOf_cons, statsOf_record.
  case_decide; simpl; lia.
Qed.

Lemma maximum_lower (s : Z) (l : list Z) : s <= maximum s l.
Proof.
  unfold maximum. revert s. induction l as [|x l IH]; intros s; simpl; [lia|].
  specialize (IH (Z.max s x)). lia.
Qed.

Lemma maximum_max_l (a s : Z) (l : list Z) :
  maximum (Z.max a s) l = Z.max a (maximum s l).
Proof.
  unfold maximum. revert a s. induction l as [|x l IH]; intros a s; simpl; [done|].
  rewrite <- IH. f_equal. lia.
Qed.

Lemma statsOf_newUser (g : GameKind) (username : string) (now : Z) :
  statsOf g (newUser username now) = getDefaultGameStats.
Proof. by destruct g. Qed.

(** C2, as the code has it.  On a freshly created profile, after any run
    of calls, the high score of a game kind is the greatest of 0 and the
    scores reported for that kind; hence it is the greatest reported score
    as soon as that one is not negative.  On any active profile it is the
    greatest of the former high score and the scores reported. *)
Theorem highScore_is_max_with_zero
  (m0 : Store.t) (username : string) (t0 : Z) (w0 : bool)
  (cs : list Session.t) (g : GameKind) :
  (exists u, getCurrentUser (recordAll cs (created username t0 w0 m0)) = Some u /\
     GameStats.highScore (statsOf g u) = maximum 0 (scoresOf g cs) /\
     (forall s l, scoresOf g cs = s :: l -> 0 <= maximum s l ->
        GameStats.highScore (statsOf g u) = maximum s l)) /\
  (forall m v, getCurrentUser m = Some v ->
     exists v', getCurrentUser (recordAll cs m) = Some v' /\
       GameStats.highScore (statsOf g v') =
       maximum (GameStats.highScore (statsOf g v)) (scoresOf g cs)).
Proof.
  split.
  - eexists. split; [apply recordAll_current, created_current|].
    rewrite highScore_after, statsOf_newUser. split; [done|].
    intros s l -> Hs. unfold maximum at 1. simpl fold_left.
    change (fold_left Z.max l (Z.max 0 s)) with (maximum (Z.max 0 s) l).
    rewrite maximum_max_l. lia.
  - intros m v E. eexists. split; [by apply recordAll_current|].
    apply highScore_after.
Qed.

Lemma highScore_is_max_with_zero_witness :
  let cs := [Session.mk snake (-5) 10 2 true; Session.mk pong 7 10 3 true;
             Session.mk snake 40 10 4 false; Session.mk snake 12 10 5 true] in
  exists u, getCurrentUser (recordAll cs (created "Ada" 1 true (Store.mk None true None)))
            = Some u /\
    GameStats.highScore (statsOf snake u) = 40.
Proof.
  intros cs.
  destruct (highScore_is_max_with_zero (Store.mk None true None) "Ada" 1 true cs snake)
    as [[u (E & _ & H)] _].
  exists u. split; [exact E|].
  apply (H (-5) [40; 12]); [reflexivity | vm_compute; discriminate].
Defined.

(** C2, as stated, fails: a single session with score -5 on a fresh
    profile leaves the high score at 0, while the greatest score reported
    is -5. *)
Lemma highScore_not_max_of_negative_scores :
  let cs := [Session.mk snake (-5) 10 2 true] in
  exists u, getCurrentUser (recordAll cs (created "Ada" 1 true (Store.mk None true None)))
            = Some u /\
    scoresOf snake cs = [-5] /\
    maximum (-5) [] = -5 /\
    GameStats.highScore (statsOf snake u) = 0 /\
    GameStats.highScore (statsOf snake u) <> maximum (-5) [].
Proof.
  eexists. split; [reflexivity|]. split_and!; try reflexivity. discriminate.
Qed.

(** C10.  On every profile reached from [createUser] by a run of calls
    with any integer arguments, the high score and the number of games
    played of every game kind are at least 0: the high score starts at 0
    and a call either keeps it or replaces it by a strictly greater
    reported score. *)
Theorem stats_never_negative
  (m0 : Store.t) (username : string) (t0 : Z) (w0 : bool) (cs : list Session.t) :
  (exists u, getCurrentUser (recordAll cs (created username t0 w0 m0)) = Some u /\
     forall g, 0 <= GameStats.highScore (statsOf g u) /\
               0 <= GameStats.gamesPlayed (statsOf g u)) /\
  (forall g, GameStats.highScore (statsOf g (newUser username t0)) = 0) /\
  (forall g c v,
     GameStats.highScore (statsOf g (recordProfile c v)) = GameStats.highScore (statsOf g v) \/
     (GameStats.highScore (statsOf g v) < Session.score c /\
      GameStats.highScore (statsOf g (recordProfile c v)) = Session.score c)).
Proof.
  split_and!.
  - eexists. split; [apply recordAll_current, created_current|].
    intros g. rewrite highScore_after, gamesPlayed_after, statsOf_newUser.
    split; [apply maximum_lower | simpl; lia].
  - intros g. by rewrite statsOf_newUser.
  - intros g c v. rewrite statsOf_record. case_decide; [|by left].
    apply updateStats_highScore_cases.
Qed.

(** *** Experience and level *)

Lemma level_step (c : Session.t) (u : UserProfile.t) :
  let u' := recordProfile c u in
  let newLevel := UserProfile.experience u' / 100 + 1 in
  UserProfile.level u <= UserProfile.level u' /\
  (UserProfile.level u' <> UserProfile.level u ->
     UserProfile.level u' = newLevel /\ UserProfile.level u < UserProfile.level u') /\
  (newLevel <= UserProfile.level u -> UserProfile.level u' = UserProfile.level u).
Proof.
  intros u' newLevel.
  assert (UserProfile.level u' =
          if UserProfile.level u <? newLevel then newLevel else UserProfile.level u) as ->
    by apply updateProfile_level.
  generalize newLevel. clear. intros n.
  destruct (Z.ltb_spec (UserProfile.level u) n); lia.
Qed.

Lemma level_after (cs : list Session.t) (u : UserProfile.t) :
  UserProfile.level u <= UserProfile.level (profileAfter cs u).
Proof.
  revert u. induction cs as [|c cs IH]; intros u; [simpl; lia|].
  change (profileAfter (c :: cs) u) with (profileAfter cs (recordProfile c u)).
  pose proof (level_step c u) as [H _]. specialize (IH (recordProfile c u)). lia.
Qed.



Lemma experience_step (c : Session.t) (u : UserProfile.t) :
  UserProfile.experience (recordProfile c u) =
  UserProfile.experience u + (Session.score c / 10 + Session.playTime c / 60).
Proof. unfold recordProfile. by rewrite updateProfile_experience. Qed.

Lemma experience_after (cs : list Session.t) (u : UserProfile.t) :
  Forall (fun c => 0 <= Session.score c /\ 0 <= Session.playTime c) cs ->
  UserProfile.experience u <= UserProfile.experience (profileAfter cs u).
Proof.
  intros H. revert u. induction H as [|c cs [Hs Hp] _ IH]; intros u; [simpl; lia|].
  change (profileAfter (c :: cs) u) with (profileAfter cs (recordProfile c u)).
  specialize (IH (recordProfile c u)). rewrite experience_step in IH.
  assert (0 <= Session.score c / 10) by (apply Z.div_pos; lia).
  assert (0 <= Session.playTime c / 60) by (apply Z.div_pos; lia).
  lia.
Qed.

(** Beyond 2^53 the sums of the code round: in doubles 2^53 + 1 is
    2^53, which is why the exact gain is stated on safe integers. *)
Lemma double_sum_rounds_beyond_safe :
  Double.add (Double.ofZ (2 ^ 53)) (Double.ofZ 1) = Double.ofZ (2 ^ 53) /\
  Double.ofZ (2 ^ 53 + 1) = Double.ofZ (2 ^ 53).
Proof. split; vm_compute; reflexivity. Qed.

(** C5, as the code has it.  A call on an active profile adds exactly
    [floor (score / 10) + floor (playTime / 60)] to the experience, for
    arguments of either sign, as long as the arguments and the experience
    before and after the call are safe integers (absolute value at most
    2^53), the range on which the quotients, the floors and the sums of
    the code are exact; and over a run of calls whose scores and play
    times are all non-negative the experience does not decrease. *)
Theorem experience_gain_exact
  (m : Store.t) (u : UserProfile.t) (cs : list Session.t) (c : Session.t) :
  getCurrentUser m = Some u ->
  exists u1 u2,
    getCurrentUser (recordAll cs m) = Some u1 /\
    getCurrentUser (record c (recordAll cs m)) = Some u2 /\
    (safeInteger (Session.score c) -> safeInteger (Session.playTime c) ->
     safeInteger (UserProfile.experience u1) ->
     safeInteger (UserProfile.experience u1
                  + (Session.score c / 10 + Session.playTime c / 60)) ->
     UserProfile.experience u2 =
       UserProfile.experience u1 + (Session.score c / 10 + Session.playTime c / 60)) /\
    (Forall (fun c => 0 <= Session.score c /\ 0 <= Session.playTime c) cs ->
       UserProfile.experience u <= UserProfile.experience u1).
Proof.
  intros E. exists (profileAfter cs u), (recordProfile c (profileAfter cs u)).
  pose proof (recordAll_current cs m u E) as E1.
  split; [exact E1|]. split; [by apply record_current|].
  split; [intros _ _ _ _; apply experience_step | apply experience_after].
Qed.

Lemma experience_gain_exact_witness :
  let m := created "Ada" 1 true (Store.mk None true None) in
  let cs := [Session.mk snake 1200 45 2 true; Session.mk memory 0 75 3 false] in
  let c := Session.mk pong (-15) 130 4 true in
  exists u1 u2,
    getCurrentUser (recordAll cs m) = Some u1 /\
    getCurrentUser (record c (recordAll cs m)) = Some u2 /\
    UserProfile.experience u1 = 121 /\
    UserProfile.experience u2 = UserProfile.experience u1 + (-2 + 2) /\
    0 <= UserProfile.experience u1.
Proof.
  intros m cs c.
  destruct (experience_gain_exact m (newUser "Ada" 1) cs c eq_refl)
    as (u1 & u2 & E1 & E2 & Hgain & Hmono).
  exists u1, u2. split; [exact E1|]. split; [exact E2|].
  assert (UserProfile.experience u1 = 121) as X1
    by (vm_compute in E1; injection E1 as <-; reflexivity).
  split; [exact X1|]. split.
  - apply Hgain; unfold c; rewrite ?X1; safe_by_evaluation.
  - apply Hmono. repeat constructor; simpl; lia.
Defined.

(** C5, as stated, fails: on a fresh profile one session with score -100
    and no play time brings the experience from 0 down to -10. *)
Lemma experience_decreases_on_negative_score :
  let m := created "Ada" 1 true (Store.mk None true None) in
  let c := Session.mk snake (-100) 0 2 true in
  exists u u', getCurrentUser m = Some u /\ getCurrentUser (record c m) = Some u' /\
    UserProfile.experience u = 0 /\ UserProfile.experience u' = -10 /\
    ~ UserProfile.experience u <= UserProfile.experience u'.
Proof.
  eexists _, _. split; [reflexivity|]. split; [reflexivity|].
  split_and!; try reflexivity. vm_compute. intros H. by apply H.
Qed.

(** *** The running mean *)

Lemma sumZ_cons (s : Z) (l : list Z) : sumZ (s :: l) = s + sumZ l.
Proof. reflexivity. Qed.








(** *** Unlocking an achievement *)

Lemma findAchievement_cons (aid : string) (a : Achievement.t) (l : list Achievement.t) :
  findAchievement aid (a :: l) =
  if decide (Achievement.id a = aid) then Some (0%nat, a)
  else prod_map S id <$> findAchievement aid l.
Proof. reflexivity. Qed.

(** [unlockIn] read along the array: the first element with the id is
    the one touched, and only when it is still locked. *)
Lemma unlockIn_cons (aid : string) (now : Z) (a : Achievement.t) (l : list Achievement.t) :
  unlockIn aid now (a :: l) =
  if decide (Achievement.id a = aid)
  then (if Achievement.unlocked a then a :: l else Achievement.unlock now a :: l)
  else a :: unlockIn aid now l.
Proof.
  unfold unlockIn. rewrite findAchievement_cons. case_decide; [done|].
  destruct (findAchievement aid l) as [[i x]|]; simpl; [|done].
  by destruct (Achievement.unlocked x).
Qed.

Lemma findAchievement_unlockIn_same
  (aid : string) (now : Z) (l : list Achievement.t) (i : nat) (a : Achievement.t) :
  findAchievement aid l = Some (i, a) ->
  findAchievement aid (unlockIn aid now l) =
  Some (i, if Achievement.unlocked a then a else Achievement.unlock now a).
Proof.
  revert i. induction l as [|x l IH]; intros i; [done|].
  rewrite unlockIn_cons, findAchievement_cons. case_decide as E.
  - intros [= <- <-]. destruct (Achievement.unlocked x) eqn:U.
    + rewrite findAchievement_cons. by rewrite decide_True.
    + rewrite findAchievement_cons. by rewrite decide_True.
  - rewrite findAchievement_cons, decide_False by done.
    destruct (findAchievement aid l) as [[j y]|]; [|done].
    intros [= <- <-]. by rewrite (IH j eq_refl).
Qed.

Lemma findAchievement_unlockIn_other
  (aid aid' : string) (now : Z) (l : list Achievement.t) :
  aid <> aid' ->
  findAchievement aid' (unlockIn aid now l) = findAchievement aid' l.
Proof.
  intros Hne. induction l as [|x l IH]; [done|].
  rewrite unlockIn_cons. case_decide as E.
  - destruct (Achievement.unlocked x); [done|].
    rewrite !findAchievement_cons. simpl.
    rewrite !decide_False by congruence. done.
  - rewrite !findAchievement_cons. case_decide; [done|]. by rewrite IH.
Qed.

Lemma unlockIn_step (aid : string) (now : Z) (l : list Achievement.t) :
  unlockStep now l (unlockIn aid now l).
Proof.
  induction l as [|x l IH]; intros i a Hi; [done|].
  rewrite unlockIn_cons. case_decide as E.
  - destruct (Achievement.unlocked x) eqn:U; [by left|].
    destruct i as [|i]; simpl in *; [|by left].
    injection Hi as <-. by right.
  - destruct i as [|i]; simpl in *; [by left|]. by apply IH.
Qed.

Lemma unlockStep_refl (now : Z) (l : list Achievement.t) : unlockStep now l l.
Proof. intros i a Hi. by left. Qed.

Lemma unlockStep_trans (now : Z) (l1 l2 l3 : list Achievement.t) :
  unlockStep now l1 l2 -> unlockStep now l2 l3 -> unlockStep now l1 l3.
Proof.
  intros H12 H23 i a Hi.
  destruct (H12 i a Hi) as [H|[U H]].
  - by apply H23.
  - destruct (H23 i _ H) as [H'|[U' _]]; [by right | done].
Qed.

Lemma unlockAchievement_step (aid : string) (now : Z) (u : UserProfile.t) :
  unlockStep now (UserProfile.globalAchievements u)
    (UserProfile.globalAchievements (unlockAchievement aid now u)).
Proof. apply unlockIn_step. Qed.

Lemma checkAchievements_step (g : GameKind) (s p now : Z) (u : UserProfile.t) :
  unlockStep now (UserProfile.globalAchievements u)
    (UserProfile.globalAchievements (checkAchievements g s p now u)).
Proof.
  unfold checkAchievements.
  repeat match goal with
  | |- unlockStep _ _ (UserProfile.globalAchievements (if ?b then _ else _)) =>
      destruct b
  | |- unlockStep _ _ (UserProfile.globalAchievements (match ?k with snake => _ | _ => _ end)) =>
      destruct k
  | |- unlockStep _ _ (UserProfile.globalAchievements (unlockAchievement _ _ _)) =>
      eapply unlockStep_trans; [|apply unlockAchievement_step]
  end; apply unlockStep_refl.
Qed.

Lemma recordProfile_step (c : Session.t) (u : UserProfile.t) :
  unlockStep (Session.now c) (UserProfile.globalAchievements u)
    (UserProfile.globalAchievements (recordProfile c u)).
Proof.
  unfold recordProfile, updateProfile.
  match goal with
  | |- unlockStep _ _ (UserProfile.globalAchievements (checkAchievements _ _ _ _ ?v)) =>
      apply (checkAchievements_step _ _ _ _ v)
  end.
Qed.

Lemma unlocked_kept (cs : list Session.t) (u : UserProfile.t) (i : nat) (a : Achievement.t) :
  UserProfile.globalAchievements u !! i = Some a ->
  Achievement.unlocked a = true ->
  UserProfile.globalAchievements (profileAfter cs u) !! i = Some a.
Proof.
  revert u. induction cs as [|c cs IH]; intros u Hi U; [done|].
  change (profileAfter (c :: cs) u) with (profileAfter cs (recordProfile c u)).
  apply IH; [|done].
  destruct (recordProfile_step c u i a Hi) as [H|[U' _]]; [done | congruence].
Qed.

Lemma unlockAchievement_first (aid : string) (now : Z) (v : UserProfile.t)
  (i : nat) (a : Achievement.t) :
  findAchievement aid (UserProfile.globalAchievements v) = Some (i, a) ->
  Achievement.unlocked a = false ->
  UserProfile.globalAchievements (unlockAchievement aid now v) =
    <[ i := Achievement.unlock now a ]> (UserProfile.globalAchievements v) /\
  isUnlocked aid (unlockAchievement aid now v) = true /\
  unlockedAtOf aid (unlockAchievement aid now v) = Some now.
Proof.
  intros F U. split_and!.
  - unfold unlockAchievement, unlockIn. simpl. by rewrite F, U.
  - unfold isUnlocked, unlockAchievement. simpl.
    rewrite (findAchievement_unlockIn_same _ _ _ _ _ F). by rewrite U.
  - unfold unlockedAtOf, unlockAchievement. simpl.
    rewrite (findAchievement_unlockIn_same _ _ _ _ _ F). by rewrite U.
Qed.

Lemma unlockAchievement_again (aid : string) (now : Z) (v : UserProfile.t)
  (i : nat) (a : Achievement.t) :
  findAchievement aid (UserProfile.globalAchievements v) = Some (i, a) ->
  Achievement.unlocked a = true ->
  unlockAchievement aid now v = v.
Proof.
  intros F U. unfold unlockAchievement, unlockIn. rewrite F, U. by destruct v.
Qed.

(** C6.  [unlockAchievement] on the first achievement with the given id:
    if it is locked, the call sets [unlocked] to true and [unlockedAt] to
    the current time, at that position of the array and nowhere else; if
    it is already unlocked, the call changes nothing in the profile.
    Over any run of calls on an active profile, an achievement that is
    unlocked stays as it is, flag and time, so that the flag goes from
    false to true at most once; and one call leaves every achievement as
    it was or unlocks a locked one at the time of the call. *)
Theorem achievement_unlocks_once
  (m : Store.t) (u : UserProfile.t) (cs : list Session.t) (c : Session.t) :
  getCurrentUser m = Some u ->
  (forall v aid now i a,
     findAchievement aid (UserProfile.globalAchievements v) = Some (i, a) ->
     if Achievement.unlocked a
     then unlockAchievement aid now v = v
     else UserProfile.globalAchievements (unlockAchievement aid now v) =
            <[ i := Achievement.mk (Achievement.id a) (Achievement.name a)
                      (Achievement.description a) (Achievement.icon a) true (Some now) ]>
              (UserProfile.globalAchievements v) /\
          isUnlocked aid (unlockAchievement aid now v) = true /\
          unlockedAtOf aid (unlockAchievement aid now v) = Some now) /\
  exists u1 u2,
    getCurrentUser (recordAll cs m) = Some u1 /\
    getCurrentUser (record c (recordAll cs m)) = Some u2 /\
    (forall i a, UserProfile.globalAchievements u !! i = Some a ->
       Achievement.unlocked a = true ->
       UserProfile.globalAchievements u1 !! i = Some a) /\
    (forall i a, UserProfile.globalAchievements u1 !! i = Some a ->
       UserProfile.globalAchievements u2 !! i = Some a \/
       (Achievement.unlocked a = false /\
        UserProfile.globalAchievements u2 !! i =
          Some (Achievement.mk (Achievement.id a) (Achievement.name a)
                  (Achievement.description a) (Achievement.icon a) true
                  (Some (Session.now c))))).
Proof.
  intros E. split.
  - intros v aid now i a F. destruct (Achievement.unlocked a) eqn:U.
    + by apply (unlockAchievement_again aid now v i a).
    + by apply (unlockAchievement_first aid now v i a).
  - exists (profileAfter cs u), (recordProfile c (profileAfter cs u)).
    pose proof (recordAll_current cs m u E) as E1.
    split; [exact E1|]. split; [by apply record_current|]. split.
    + intros i a. apply unlocked_kept.
    + apply recordProfile_step.
Qed.

(** [speed_demon] is unlocked at time 2 by a snake score of 1200; a later
    snake score of 1500 at time 3 triggers it again and leaves it, and its
    time of unlocking, as they were. *)
Lemma achievement_unlocks_once_witness :
  let m := recordAll [Session.mk snake 1200 45 2 true]
             (created "Ada" 1 true (Store.mk None true None)) in
  let speed_demon :=
    Achievement.mk "speed_demon" "Speed Demon" "Score 1000+ points in Snake" "⚡"
      true (Some 2) in
  exists u1,
    getCurrentUser (recordAll [Session.mk snake 1500 10 3 true] m) = Some u1 /\
    UserProfile.globalAchievements u1 !! 1%nat = Some speed_demon.
Proof.
  intros m speed_demon.
  destruct (achievement_unlocks_once m
              (profileAfter [Session.mk snake 1200 45 2 true] (newUser "Ada" 1))
              [Session.mk snake 1500 10 3 true] (Session.mk tetris 5 5 4 true) eq_refl)
    as (_ & u1 & _ & E1 & _ & Hkept & _).
  exists u1. split; [exact E1|]. apply Hkept; reflexivity.
Defined.

(** *** The achievement for playing every game kind *)

Lemma kindsPlayed_all (u : UserProfile.t) :
  kindsPlayed u = 5%nat <-> forall g, 0 < GameStats.gamesPlayed (statsOf g u).
Proof.
  unfold kindsPlayed, stats_values, all_kinds, statsOf. simpl map.
  rewrite !filter_cons, filter_nil. split.
  - intros H g. repeat case_decide; simpl in H; try discriminate H.
    by destruct g.
  - intros H.
    pose proof (H snake). pose proof (H tetris). pose proof (H pong).
    pose proof (H memory). pose proof (H platformer).
    repeat case_decide; done.
Qed.

Lemma gamesPlayed_record_le (g : GameKind) (c : Session.t) (u : UserProfile.t) :
  GameStats.gamesPlayed (statsOf g u) <= GameStats.gamesPlayed (statsOf g (recordProfile c u)).
Proof. rewrite statsOf_record. case_decide; simpl; lia. Qed.

(** Once every kind has been played, it stays so. *)
Lemma kindsPlayed_complete_stays (c : Session.t) (u : UserProfile.t) :
  kindsPlayed u = 5%nat -> kindsPlayed (recordProfile c u) = 5%nat.
Proof.
  rewrite !kindsPlayed_all. intros H g.
  pose proof (H g). pose proof (gamesPlayed_record_le g c u). lia.
Qed.

Lemma kindsPlayed_calls (cs : list Session.t) (username : string) (now : Z) :
  kindsPlayed (profileAfter cs (newUser username now)) = 5%nat <->
  forall g, exists c, c ∈ cs /\ Session.game c = g.
Proof.
  rewrite kindsPlayed_all. apply forall_proper. intros g.
  rewrite gamesPlayed_after, statsOf_newUser. simpl. unfold scoresOf.
  rewrite length_map. split.
  - intros H. destruct (filter _ cs) as [|c l] eqn:F; [simpl in H; lia|].
    assert (c ∈ filter (fun c => Session.game c = g) cs) as Hin
      by (rewrite F; left).
    apply list_elem_of_filter in Hin as [Hg Hc]. by exists c.
  - intros (c & Hc & Hg).
    assert (c ∈ filter (fun c => Session.game c = g) cs) as Hin
      by by apply list_elem_of_filter.
    destruct (filter _ cs); [by apply not_elem_of_nil in Hin | simpl; lia].
Qed.

Lemma unlockAchievement_other (aid aid' : string) (now : Z) (u : UserProfile.t) :
  aid <> aid' ->
  findAchievement aid' (UserProfile.globalAchievements (unlockAchievement aid now u)) =
  findAchievement aid' (UserProfile.globalAchievements u).
Proof. intros H. by apply findAchievement_unlockIn_other. Qed.

(** What [checkAchievements] does to the entry of [game_master]: it is
    unlocked by the last test alone, when five kinds have been played and
    it is still locked. *)
Lemma checkAchievements_game_master (g : GameKind) (s p now : Z) (u : UserProfile.t) :
  findAchievement "game_master"
    (UserProfile.globalAchievements (checkAchievements g s p now u)) =
  match findAchievement "game_master" (UserProfile.globalAchievements u) with
  | Some (i, a) =>
      Some (i, if Nat.eqb (kindsPlayed u) 5 && negb (Achievement.unlocked a)
               then Achievement.unlock now a else a)
  | None => None
  end.
Proof.
  unfold checkAchievements.
  set (u1 := if UserProfile.totalGamesPlayed u =? 1 then _ else _).
  set (u2 := match g with snake => _ | _ => _ end).
  set (u3 := if 3600 <=? UserProfile.totalPlayTime u2 then _ else _).
  assert (findAchievement "game_master" (UserProfile.globalAchievements u1) =
          findAchievement "game_master" (UserProfile.globalAchievements u) /\
          kindsPlayed u1 = kindsPlayed u) as [F1 K1].
  { unfold u1. destruct (_ =? _); [|done].
    split; [by apply unlockAchievement_other | done]. }
  assert (findAchievement "game_master" (UserProfile.globalAchievements u2) =
          findAchievement "game_master" (UserProfile.globalAchievements u1) /\
          kindsPlayed u2 = kindsPlayed u1) as [F2 K2].
  { unfold u2. destruct g; destruct (_ <=? _); try done;
      (split; [by apply unlockAchievement_other | done]). }
  assert (findAchievement "game_master" (UserProfile.globalAchievements u3) =
          findAchievement "game_master" (UserProfile.globalAchievements u2) /\
          kindsPlayed u3 = kindsPlayed u2) as [F3 K3].
  { unfold u3. destruct (3600 <=? _); [|done].
    split; [by apply unlockAchievement_other | done]. }
  rewrite K3, K2, K1. rewrite <- F1, <- F2, <- F3.
  clearbody u3. clear. destruct (Nat.eqb (kindsPlayed u) 5); simpl.
  - destruct (findAchievement _ (UserProfile.globalAchievements u3)) as [[i a]|] eqn:F.
    + unfold unlockAchievement. simpl.
      rewrite (findAchievement_unlockIn_same _ _ _ _ _ F).
      by destruct (Achievement.unlocked a).
    + unfold unlockAchievement, unlockIn. simpl. by rewrite F.
  - by destruct (findAchievement _ _) as [[i a]|].
Qed.

Lemma recordProfile_game_master (c : Session.t) (u : UserProfile.t) :
  findAchievement "game_master" (UserProfile.globalAchievements (recordProfile c u)) =
  match findAchievement "game_master" (UserProfile.globalAchievements u) with
  | Some (i, a) =>
      Some (i, if Nat.eqb (kindsPlayed (recordProfile c u)) 5
                  && negb (Achievement.unlocked a)
               then Achievement.unlock (Session.now c) a else a)
  | None => None
  end.
Proof.
  unfold recordProfile at 1, updateProfile.
  rewrite checkAchievements_game_master. simpl UserProfile.globalAchievements.
  destruct (findAchievement _ _) as [[i a]|]; [|done].
  do 3 f_equal. unfold recordProfile, kindsPlayed.
  by rewrite updateProfile_gameStats.
Qed.

Lemma game_master_invariant (cs : list Session.t) (username : string) (t0 : Z) :
  let u := profileAfter cs (newUser username t0) in
  is_Some (findAchievement "game_master" (UserProfile.globalAchievements u)) /\
  isUnlocked "game_master" u = Nat.eqb (kindsPlayed u) 5.
Proof.
  induction cs as [|c cs IH] using rev_ind; [by split; [eexists|]|].
  cbv zeta in *. rewrite profileAfter_snoc.
  set (u1 := profileAfter cs (newUser username t0)) in *.
  destruct IH as [[[i a] F] U]. unfold isUnlocked in *.
  rewrite recordProfile_game_master, F in *. split; [by eexists|].
  destruct (Nat.eqb (kindsPlayed (recordProfile c u1)) 5) eqn:K2; simpl.
  - by destruct (Achievement.unlocked a) eqn:Ua.
  - rewrite U. destruct (Nat.eqb (kindsPlayed u1) 5) eqn:K1; [|done].
    apply Nat.eqb_eq, (kindsPlayed_complete_stays c) in K1.
    apply Nat.eqb_neq in K2. done.
Qed.

(** C9.  On a freshly created profile, after any run of calls,
    [game_master] is unlocked exactly when five game kinds have a positive
    number of games played, which is when every kind occurs among the
    calls made; once that holds it holds after every later call.  So the
    achievement is locked before, and unlocked by, the first call after
    which the count is five, with that call's time as [unlockedAt]. *)
Theorem game_master_on_fifth_kind
  (m0 : Store.t) (username : string) (t0 : Z) (w0 : bool)
  (cs : list Session.t) (c : Session.t) :
  let m1 := recordAll cs (created username t0 w0 m0) in
  let m2 := record c m1 in
  exists u1 u2,
    getCurrentUser m1 = Some u1 /\ getCurrentUser m2 = Some u2 /\
    (isUnlocked "game_master" u1 = true <-> kindsPlayed u1 = 5%nat) /\
    (isUnlocked "game_master" u2 = true <-> kindsPlayed u2 = 5%nat) /\
    (kindsPlayed u2 = 5%nat <->
       forall g, exists c', c' ∈ cs ++ [c] /\ Session.game c' = g) /\
    (kindsPlayed u1 = 5%nat -> kindsPlayed u2 = 5%nat) /\
    (kindsPlayed u1 <> 5%nat -> kindsPlayed u2 = 5%nat ->
       isUnlocked "game_master" u1 = false /\
       isUnlocked "game_master" u2 = true /\
       unlockedAtOf "game_master" u2 = Some (Session.now c)).
Proof.
  intros m1 m2.
  set (u1 := profileAfter cs (newUser username t0)).
  exists u1, (recordProfile c u1).
  assert (getCurrentUser m1 = Some u1) as E1
    by apply recordAll_current, created_current.
  split; [exact E1|]. split; [by apply record_current|].
  pose proof (game_master_invariant cs username t0) as [[[i a] F] U1].
  pose proof (game_master_invariant (cs ++ [c]) username t0) as [_ U2].
  cbv zeta in U1, U2. rewrite profileAfter_snoc in U2. fold u1 in F, U1, U2.
  split_and!.
  - rewrite U1. apply Nat.eqb_eq.
  - rewrite U2. apply Nat.eqb_eq.
  - unfold u1. rewrite <- profileAfter_snoc. apply kindsPlayed_calls.
  - apply kindsPlayed_complete_stays.
  - intros K1 K2. split_and!.
    + rewrite U1. by apply Nat.eqb_neq.
    + rewrite U2. by apply Nat.eqb_eq.
    + unfold unlockedAtOf. rewrite recordProfile_game_master, F.
      apply Nat.eqb_neq in K1. apply Nat.eqb_eq in K2.
      unfold isUnlocked in U1. rewrite F, K1 in U1. by rewrite K2, U1.
Qed.

(** Four kinds are played, then the fifth at time 6: [game_master] is
    unlocked by that call, at time 6. *)
Lemma game_master_on_fifth_kind_witness :
  let cs := [Session.mk snake 3 5 2 true; Session.mk tetris 3 5 3 true;
             Session.mk snake 8 5 4 true; Session.mk pong 3 5 4 true;
             Session.mk memory 3 50 5 true] in
  let c := Session.mk platformer 0 5 6 true in
  let m1 := recordAll cs (created "Ada" 1 true (Store.mk None true None)) in
  exists u1 u2,
    getCurrentUser m1 = Some u1 /\ getCurrentUser (record c m1) = Some u2 /\
    isUnlocked "game_master" u1 = false /\
    isUnlocked "game_master" u2 = true /\
    unlockedAtOf "game_master" u2 = Some 6.
Proof.
  intros cs c m1.
  destruct (game_master_on_fifth_kind (Store.mk None true None) "Ada" 1 true cs c)
    as (u1 & u2 & E1 & E2 & _ & _ & _ & _ & H).
  exists u1, u2. split; [exact E1|]. split; [exact E2|].
  apply H.
  - vm_compute in E1. injection E1 as <-. vm_compute. discriminate.
  - vm_compute in E2. injection E2 as <-. reflexivity.
Defined.

(** *** The leaderboard *)

Lemma sort_insert_perm (x : Entry.t) (l : list Entry.t) :
  sort_insert byScore x l ≡ₚ x :: l.
Proof.
  induction l as [|y r IH]; simpl; [done|].
  destruct (byScore x y <=? 0); [done|]. rewrite IH. apply Permutation_swap.
Qed.

Lemma array_sort_perm (l : list Entry.t) : array_sort byScore l ≡ₚ l.
Proof.
  induction l as [|x r IH]; simpl; [done|].
  by rewrite sort_insert_perm, IH.
Qed.

Lemma sort_insert_sorted (x : Entry.t) (l : list Entry.t) :
  StronglySorted scoreGe l -> StronglySorted scoreGe (sort_insert byScore x l).
Proof.
  induction 1 as [|y r Hr IH Hy]; simpl.
  - repeat constructor.
  - unfold byScore at 1.
    destruct (Z.leb_spec (Entry.score y - Entry.score x) 0) as [Hle|Hgt].
    + constructor; [by constructor|]. constructor; [unfold scoreGe; lia|].
      eapply Forall_impl; [exact Hy|]. unfold scoreGe. intros z Hz. simpl in Hz. lia.
    + constructor; [exact IH|]. rewrite sort_insert_perm.
      constructor; [unfold scoreGe; lia | exact Hy].
Qed.

Lemma array_sort_sorted (l : list Entry.t) : StronglySorted scoreGe (array_sort byScore l).
Proof.
  induction l as [|x r IH]; simpl; [constructor|]. by apply sort_insert_sorted.
Qed.

(** Insertion does not reorder entries of equal score. *)
Lemma sort_insert_stable (s : Z) (x : Entry.t) (l : list Entry.t) :
  withScore s (sort_insert byScore x l) = withScore s (x :: l).
Proof.
  unfold withScore. induction l as [|y r IH]; simpl; [done|].
  unfold byScore at 1.
  destruct (Z.leb_spec (Entry.score y - Entry.score x) 0) as [Hle|Hgt]; [done|].
  rewrite (filter_cons _ y), IH, !filter_cons.
  repeat case_decide; try done. lia.
Qed.

Lemma array_sort_stable (s : Z) (l : list Entry.t) :
  withScore s (array_sort byScore l) = withScore s l.
Proof.
  induction l as [|x r IH]; simpl; [done|].
  rewrite sort_insert_stable. unfold withScore in *.
  by rewrite !filter_cons, IH.
Qed.

Lemma leaderboardEntries_spec (game : option GameKind) (m : Store.t) :
  leaderboardEntries game m = mockData ++ userEntry game m.
Proof.
  unfold leaderboardEntries, userEntry, getCurrentUser, statsOf.
  destruct (Store.currentUser m) as [u|]; [|done].
  destruct game as [g|]; [|done]. by destruct (0 <? _).
Qed.

Lemma userEntry_length (game : option GameKind) (m : Store.t) :
  (length (userEntry game m) <= 1)%nat.
Proof.
  unfold userEntry. repeat case_match; simpl; lia.
Qed.

(** C7.  In every state of the store, [getLeaderboard] returns a list
    sorted by descending score, of at most 10 entries, in which entries of
    equal score stand in the order they had before sorting.  It is a
    rearrangement of the five built-in entries followed by the entry of
    the active profile, and that entry, carrying the profile's name and
    its high score for the game kind, is there exactly when a profile is
    active, a game kind is given and that high score is above 0. *)
Theorem leaderboard_sorted_capped_stable (m : Store.t) (game : option GameKind) :
  let r := getLeaderboard game m in
  StronglySorted scoreGe r /\
  (length r <= 10)%nat /\
  (forall s, withScore s r = withScore s (mockData ++ userEntry game m)) /\
  r ≡ₚ mockData ++ userEntry game m /\
  length mockData = 5%nat /\
  (forall e, userEntry game m = [e] <->
     exists u g, getCurrentUser m = Some u /\ game = Some g /\
       0 < GameStats.highScore (statsOf g u) /\
       e = Entry.mk (UserProfile.username u) (GameStats.highScore (statsOf g u))
             (Some (GameKind_name g))) /\
  (userEntry game m = [] <->
     ~ exists u g, getCurrentUser m = Some u /\ game = Some g /\
         0 < GameStats.highScore (statsOf g u)).
Proof.
  intros r.
  assert (r = array_sort byScore (mockData ++ userEntry game m)) as ->.
  { unfold r, getLeaderboard. rewrite leaderboardEntries_spec.
    apply take_ge. rewrite array_sort_perm, length_app.
    pose proof (userEntry_length game m). simpl. lia. }
  split_and!.
  - apply array_sort_sorted.
  - rewrite array_sort_perm, length_app.
    pose proof (userEntry_length game m). simpl. lia.
  - intros s. apply array_sort_stable.
  - apply array_sort_perm.
  - reflexivity.
  - intros e. unfold userEntry.
    destruct (getCurrentUser m) as [u|]; [|split; [done | by intros (?&?&?&_)]].
    destruct game as [g|]; [|split; [done | by intros (?&?&_&?&_)]].
    destruct (Z.ltb_spec 0 (GameStats.highScore (statsOf g u))) as [Hpos|Hle].
    + split; [intros [= <-]; by exists u, g | by intros (?&?&[= <-]&[= <-]&_&->)].
    + split; [done | intros (?&?&[= <-]&[= <-]&?&_); lia].
  - unfold userEntry.
    destruct (getCurrentUser m) as [u|]; [|split; [by intros _ (?&?&?&_) | done]].
    destruct game as [g|]; [|split; [by intros _ (?&?&_&?&_) | done]].
    destruct (Z.ltb_spec 0 (GameStats.highScore (statsOf g u))) as [Hpos|Hle].
    + split; [done | intros H; destruct H; by exists u, g].
    + split; [intros _ (?&?&[= <-]&[= <-]&?); lia | done].
Qed.

(** A profile whose memory high score is 15 ties with two built-in
    entries: the three stand in the order built-in, built-in, profile. *)
Lemma leaderboard_sorted_capped_stable_witness :
  let m := recordAll [Session.mk memory 15 40 2 true]
             (created "Ada" 1 true (Store.mk None true None)) in
  getLeaderboard (Some memory) m =
    [ Entry.mk "JumpHero" 8500 (Some "platformer");
      Entry.mk "TetrisKing" 2500 (Some "tetris");
      Entry.mk "ProGamer123" 1250 (Some "snake");
      Entry.mk "MemoryMaster" 15 (Some "memory");
      Entry.mk "PongChamp" 15 (Some "pong");
      Entry.mk "Ada" 15 (Some "memory") ] /\
  withScore 15 (getLeaderboard (Some memory) m) =
    [ Entry.mk "MemoryMaster" 15 (Some "memory");
      Entry.mk "PongChamp" 15 (Some "pong");
      Entry.mk "Ada" 15 (Some "memory") ].
Proof.
  intros m. split; [reflexivity|].
  destruct (leaderboard_sorted_capped_stable m (Some memory)) as (_ & _ & H & _).
  rewrite (H 15). reflexivity.
Defined.

(** ** Further properties of the profile store *)

(** *** Every achievement, call by call *)

Lemma unlockIf_unlockIf (b1 b2 : bool) (now : Z) (a : Achievement.t) :
  unlockIf b2 now (unlockIf b1 now a) = unlockIf (b1 || b2) now a.
Proof. unfold unlockIf. by destruct b1, b2, (Achievement.unlocked a) eqn:U; simpl; rewrite ?U. Qed.

Lemma unlockIf_unlocked (b : bool) (now : Z) (a : Achievement.t) :
  Achievement.unlocked a = true -> unlockIf b now a = a.
Proof. unfold unlockIf. intros ->. by rewrite andb_false_r. Qed.

Lemma unlockIf_false (now : Z) (a : Achievement.t) : unlockIf false now a = a.
Proof. reflexivity. Qed.

Lemma unlockIf_flag (b : bool) (now : Z) (a : Achievement.t) :
  Achievement.unlocked (unlockIf b now a) = Achievement.unlocked a || b.
Proof. unfold unlockIf. by destruct b, (Achievement.unlocked a) eqn:U; simpl; rewrite ?U. Qed.

(** One conditional [unlockAchievement], seen from the entry of any id. *)
Lemma conditional_unlock_find (b : bool) (aid0 aid : string) (now : Z) (u : UserProfile.t) :
  let u' := if b then unlockAchievement aid0 now u else u in
  findAchievement aid (UserProfile.globalAchievements u') =
    prod_map id (unlockIf (String.eqb aid aid0 && b) now)
      <$> findAchievement aid (UserProfile.globalAchievements u) /\
  UserProfile.totalGamesPlayed u' = UserProfile.totalGamesPlayed u /\
  UserProfile.totalPlayTime u' = UserProfile.totalPlayTime u /\
  kindsPlayed u' = kindsPlayed u.
Proof.
  destruct b; simpl.
  - split; [|done]. unfold unlockAchievement. simpl.
    destruct (String.eqb_spec aid aid0) as [->|Hne]; simpl.
    + destruct (findAchievement aid0 (UserProfile.globalAchievements u))
        as [[i a]|] eqn:F; simpl.
      * rewrite (findAchievement_unlockIn_same _ _ _ _ _ F).
        unfold unlockIf. by destruct (Achievement.unlocked a).
      * unfold unlockIn. by rewrite F.
    + rewrite findAchievement_unlockIn_other by done.
      by destruct (findAchievement aid _) as [[i a]|].
  - split; [|done]. rewrite andb_false_r.
    by destruct (findAchievement aid _) as [[i a]|].
Qed.

Lemma checkAchievements_find (aid : string) (g : GameKind) (s p now : Z)
  (u : UserProfile.t) :
  findAchievement aid (UserProfile.globalAchievements (checkAchievements g s p now u)) =
  prod_map id (unlockIf (triggered aid g s p u) now)
    <$> findAchievement aid (UserProfile.globalAchievements u).
Proof.
  unfold checkAchievements.
  set (u1 := if UserProfile.totalGamesPlayed u =? 1 then _ else _).
  set (u2 := match g with snake => _ | _ => _ end).
  set (u3 := if 3600 <=? UserProfile.totalPlayTime u2 then _ else _).
  destruct (conditional_unlock_find (UserProfile.totalGamesPlayed u =? 1)
              "first_game" aid now u) as (F1 & _ & P1 & K1).
  fold u1 in F1, P1, K1.
  assert (exists (b : bool) (aid0 : string), u2 = (if b then unlockAchievement aid0 now u1 else u1) /\
            String.eqb aid aid0 && b =
            match g with
            | snake => String.eqb aid "speed_demon" && (1000 <=? s)
            | tetris => String.eqb aid "tetris_master" && (1000 <=? s)
            | pong => String.eqb aid "pong_champion" && (10 <=? s)
            | memory => String.eqb aid "memory_champion" && (p <=? 30)
            | platformer => String.eqb aid "platformer_pro" && (5000 <=? s)
            end) as (b2 & aid2 & E2 & B2).
  { unfold u2. destruct g; eexists _, _; split; reflexivity. }
  destruct (conditional_unlock_find b2 aid2 aid now u1) as (F2 & _ & P2 & K2).
  rewrite <- E2 in F2, P2, K2.
  destruct (conditional_unlock_find (3600 <=? UserProfile.totalPlayTime u2)
              "dedicated_player" aid now u2) as (F3 & _ & _ & K3).
  fold u3 in F3, K3.
  destruct (conditional_unlock_find (Nat.eqb (kindsPlayed u3) 5)
              "game_master" aid now u3) as (F4 & _).
  cbv zeta in F4. rewrite F4, F3, F2, F1.
  unfold triggered. rewrite K3, K2, K1, P2, P1, B2.
  clear. destruct (findAchievement aid (UserProfile.globalAchievements u))
    as [[i a]|]; [|reflexivity].
  cbn [fmap option_fmap option_map prod_map fst snd id].
  by rewrite !unlockIf_unlockIf, !orb_assoc.
Qed.

(** One call, seen from the entry of any id: it is unlocked when the call
    asks for it and it is still locked, and is left alone otherwise. *)
Lemma recordProfile_find (aid : string) (c : Session.t) (u : UserProfile.t) :
  findAchievement aid (UserProfile.globalAchievements (recordProfile c u)) =
  prod_map id
    (unlockIf (triggered aid (Session.game c) (Session.score c) (Session.playTime c)
                 (recordProfile c u)) (Session.now c))
    <$> findAchievement aid (UserProfile.globalAchievements u).
Proof.
  unfold recordProfile at 1, updateProfile. rewrite checkAchievements_find.
  simpl UserProfile.globalAchievements. do 3 f_equal.
  unfold recordProfile, updateProfile. by rewrite checkAchievements_only_list.
Qed.

Lemma isUnlocked_record (aid : string) (c : Session.t) (u : UserProfile.t) :
  is_Some (findAchievement aid (UserProfile.globalAchievements u)) ->
  isUnlocked aid (recordProfile c u) =
  isUnlocked aid u
  || triggered aid (Session.game c) (Session.score c) (Session.playTime c)
       (recordProfile c u).
Proof.
  intros [[i a] F]. unfold isUnlocked. rewrite recordProfile_find, F. simpl.
  apply unlockIf_flag.
Qed.

Lemma find_is_Some_after (aid : string) (cs : list Session.t) (u : UserProfile.t) :
  is_Some (findAchievement aid (UserProfile.globalAchievements u)) ->
  is_Some (findAchievement aid (UserProfile.globalAchievements (profileAfter cs u))).
Proof.
  revert u. induction cs as [|c cs IH]; intros u H; [done|].
  change (profileAfter (c :: cs) u) with (profileAfter cs (recordProfile c u)).
  apply IH. rewrite recordProfile_find. destruct H as [[i a] ->]. by eexists.
Qed.

Lemma find_unlocked_after (aid : string) (cs : list Session.t) (u : UserProfile.t)
  (i : nat) (a : Achievement.t) :
  findAchievement aid (UserProfile.globalAchievements u) = Some (i, a) ->
  Achievement.unlocked a = true ->
  findAchievement aid (UserProfile.globalAchievements (profileAfter cs u)) = Some (i, a).
Proof.
  revert u. induction cs as [|c cs IH]; intros u F U; [done|].
  change (profileAfter (c :: cs) u) with (profileAfter cs (recordProfile c u)).
  apply IH; [|done]. rewrite recordProfile_find, F. simpl.
  by rewrite unlockIf_unlocked.
Qed.

(** *** Totals over the five kinds *)

Lemma totals_record (c : Session.t) (u : UserProfile.t) :
  UserProfile.totalGamesPlayed (recordProfile c u) = UserProfile.totalGamesPlayed u + 1 /\
  UserProfile.totalPlayTime (recordProfile c u) =
    UserProfile.totalPlayTime u + Session.playTime c.
Proof. unfold recordProfile, updateProfile. by rewrite checkAchievements_only_list. Qed.

Lemma overKinds_record (c : Session.t) (u : UserProfile.t) :
  overKinds GameStats.gamesPlayed (recordProfile c u) =
    overKinds GameStats.gamesPlayed u + 1 /\
  overKinds GameStats.totalPlayTime (recordProfile c u) =
    overKinds GameStats.totalPlayTime u + Session.playTime c.
Proof.
  unfold overKinds, all_kinds. cbn [map]. rewrite !statsOf_record.
  unfold sumZ. destruct (Session.game c); simpl; lia.
Qed.

Lemma totals_after (cs : list Session.t) (u : UserProfile.t) :
  UserProfile.totalGamesPlayed (profileAfter cs u) =
    UserProfile.totalGamesPlayed u + Z.of_nat (length cs) /\
  UserProfile.totalPlayTime (profileAfter cs u) =
    UserProfile.totalPlayTime u + playTimes cs /\
  overKinds GameStats.gamesPlayed (profileAfter cs u) =
    overKinds GameStats.gamesPlayed u + Z.of_nat (length cs) /\
  overKinds GameStats.totalPlayTime (profileAfter cs u) =
    overKinds GameStats.totalPlayTime u + playTimes cs.
Proof.
  revert u. induction cs as [|c cs IH]; intros u.
  - unfold playTimes. simpl. lia.
  - change (profileAfter (c :: cs) u) with (profileAfter cs (recordProfile c u)).
    destruct (IH (recordProfile c u)) as (-> & -> & -> & ->).
    destruct (totals_record c u) as [-> ->].
    destruct (overKinds_record c u) as [-> ->].
    unfold playTimes. simpl map. rewrite sumZ_cons. simpl length. lia.
Qed.

(** The profile-wide counters agree with the per-game ones.  On a
    profile reached from [createUser] by a run of at most 2^53 calls
    whose play times, in absolute value, add up to at most 2^53 (so that
    every counter and every partial sum of play times, profile-wide or
    per game, is a safe integer and no addition of the code rounds),
    [totalGamesPlayed] is the number of calls and the sum of the five
    [gamesPlayed], and [totalPlayTime] is the sum of the play times
    reported and the sum of the five per-game play times. *)
Theorem totals_agree_with_game_stats
  (m0 : Store.t) (username : string) (t0 : Z) (w0 : bool) (cs : list Session.t) :
  Z.of_nat (length cs) <= 2 ^ 53 ->
  sumZ (map (fun c => Z.abs (Session.playTime c)) cs) <= 2 ^ 53 ->
  exists u, getCurrentUser (recordAll cs (created username t0 w0 m0)) = Some u /\
    UserProfile.totalGamesPlayed u = Z.of_nat (length cs) /\
    UserProfile.totalGamesPlayed u = overKinds GameStats.gamesPlayed u /\
    UserProfile.totalPlayTime u = playTimes cs /\
    UserProfile.totalPlayTime u = overKinds GameStats.totalPlayTime u.
Proof.
  intros _ _.
  eexists. split; [apply recordAll_current, created_current|].
  destruct (totals_after cs (newUser username t0)) as (-> & -> & -> & ->).
  split_and!; reflexivity.
Qed.

Lemma totals_agree_with_game_stats_witness :
  let cs := [Session.mk snake 1200 45 2 true; Session.mk memory 3 20 3 true;
             Session.mk snake 7 100 4 false] in
  exists u, getCurrentUser (recordAll cs (created "Ada" 1 true (Store.mk None true None)))
            = Some u /\
    UserProfile.totalGamesPlayed u = 3 /\
    UserProfile.totalPlayTime u = 165 /\
    overKinds GameStats.totalPlayTime u = 165.
Proof.
  intros cs.
  destruct (totals_agree_with_game_stats (Store.mk None true None) "Ada" 1 true cs)
    as (u & E & Hn & _ & Ht & Hk); [vm_compute; discriminate | vm_compute; discriminate |].
  exists u. split; [exact E|]. split; [exact Hn|]. split; [exact Ht|].
  rewrite <- Hk. exact Ht.
Defined.

(** *** The achievements one by one *)

(** [first_game] is locked on a new profile and is unlocked by the first
    call recorded on it, whatever the call, at the time of that call;
    later calls leave it so. *)
Theorem first_game_on_first_call
  (m0 : Store.t) (username : string) (t0 : Z) (w0 : bool)
  (c : Session.t) (cs : list Session.t) :
  isUnlocked "first_game" (newUser username t0) = false /\
  exists u, getCurrentUser (recordAll (c :: cs) (created username t0 w0 m0)) = Some u /\
    isUnlocked "first_game" u = true /\
    unlockedAtOf "first_game" u = Some (Session.now c).
Proof.
  split; [reflexivity|].
  eexists. split; [apply recordAll_current, created_current|].
  change (profileAfter (c :: cs) (newUser username t0))
    with (profileAfter cs (recordProfile c (newUser username t0))).
  set (u1 := recordProfile c (newUser username t0)).
  assert (exists a, findAchievement "first_game" (UserProfile.globalAchievements u1)
                    = Some (0%nat, a) /\
                    Achievement.unlocked a = true /\
                    Achievement.unlockedAt a = Some (Session.now c)) as (a & F & U & T).
  { unfold u1. rewrite recordProfile_find. fold u1.
    assert (triggered "first_game" (Session.game c) (Session.score c)
              (Session.playTime c) u1 = true) as ->.
    { unfold triggered. destruct (totals_record c (newUser username t0)) as [E _].
      fold u1 in E. rewrite E. reflexivity. }
    eexists. split; [reflexivity|]. split; reflexivity. }
  unfold isUnlocked, unlockedAtOf.
  rewrite (find_unlocked_after "first_game" cs u1 0 a F U). done.
Qed.

Lemma state_free_achievement (aid : string) (t : Session.t -> bool)
  (cs : list Session.t) (u : UserProfile.t) :
  is_Some (findAchievement aid (UserProfile.globalAchievements u)) ->
  (forall c v, triggered aid (Session.game c) (Session.score c) (Session.playTime c) v
               = t c) ->
  isUnlocked aid (profileAfter cs u) = isUnlocked aid u || existsb t cs.
Proof.
  intros F Ht. revert u F. induction cs as [|c cs IH]; intros u F.
  - simpl. by rewrite orb_false_r.
  - change (profileAfter (c :: cs) u) with (profileAfter cs (recordProfile c u)).
    rewrite IH by (by apply (find_is_Some_after aid [c])).
    rewrite isUnlocked_record, Ht by done. simpl. by rewrite orb_assoc.
Qed.

(** The five achievements tied to a game kind.  On a profile reached from
    [createUser] by a run of calls, each is unlocked exactly when some
    call of the run was for its kind and met its threshold: a snake score
    of at least 1000 for [speed_demon], a tetris score of at least 1000
    for [tetris_master], a pong score of at least 10 for [pong_champion],
    a memory session of at most 30 seconds for [memory_champion], a
    platformer score of at least 5000 for [platformer_pro]. *)
Theorem game_achievements_by_threshold
  (m0 : Store.t) (username : string) (t0 : Z) (w0 : bool) (cs : list Session.t) :
  exists u, getCurrentUser (recordAll cs (created username t0 w0 m0)) = Some u /\
    (isUnlocked "speed_demon" u = true <->
       exists c, c ∈ cs /\ Session.game c = snake /\ 1000 <= Session.score c) /\
    (isUnlocked "tetris_master" u = true <->
       exists c, c ∈ cs /\ Session.game c = tetris /\ 1000 <= Session.score c) /\
    (isUnlocked "pong_champion" u = true <->
       exists c, c ∈ cs /\ Session.game c = pong /\ 10 <= Session.score c) /\
    (isUnlocked "memory_champion" u = true <->
       exists c, c ∈ cs /\ Session.game c = memory /\ Session.playTime c <= 30) /\
    (isUnlocked "platformer_pro" u = true <->
       exists c, c ∈ cs /\ Session.game c = platformer /\ 5000 <= Session.score c).
Proof.
  eexists. split; [apply recordAll_current, created_current|].
  assert (forall aid g0 (cond : Session.t -> bool) (P : Session.t -> Prop),
            (forall c, cond c = true <-> P c) ->
            is_Some (findAchievement aid
                       (UserProfile.globalAchievements (newUser username t0))) ->
            isUnlocked aid (newUser username t0) = false ->
            (forall c v, triggered aid (Session.game c) (Session.score c)
                           (Session.playTime c) v
                         = bool_decide (Session.game c = g0) && cond c) ->
            isUnlocked aid (profileAfter cs (newUser username t0)) = true <->
            exists c, c ∈ cs /\ Session.game c = g0 /\ P c) as H.
  { intros aid g0 cond P HP F U Ht.
    rewrite (state_free_achievement aid _ cs _ F Ht), U. simpl.
    rewrite existsb_exists. apply exist_proper. intros c.
    rewrite andb_true_iff, bool_decide_eq_true, <- list_elem_of_In, HP. tauto. }
  split_and!.
  - apply (H _ _ (fun c => 1000 <=? Session.score c));
      [ intros c; apply Z.leb_le | by eexists | done
      | intros c v; unfold triggered;
        destruct (Session.game c); simpl; by rewrite ?orb_false_r ].
  - apply (H _ _ (fun c => 1000 <=? Session.score c));
      [ intros c; apply Z.leb_le | by eexists | done
      | intros c v; unfold triggered;
        destruct (Session.game c); simpl; by rewrite ?orb_false_r ].
  - apply (H _ _ (fun c => 10 <=? Session.score c));
      [ intros c; apply Z.leb_le | by eexists | done
      | intros c v; unfold triggered;
        destruct (Session.game c); simpl; by rewrite ?orb_false_r ].
  - apply (H _ _ (fun c => Session.playTime c <=? 30));
      [ intros c; apply Z.leb_le | by eexists | done
      | intros c v; unfold triggered;
        destruct (Session.game c); simpl; by rewrite ?orb_false_r ].
  - apply (H _ _ (fun c => 5000 <=? Session.score c));
      [ intros c; apply Z.leb_le | by eexists | done
      | intros c v; unfold triggered;
        destruct (Session.game c); simpl; by rewrite ?orb_false_r ].
Qed.


Lemma playTimes_snoc (cs : list Session.t) (c : Session.t) :
  playTimes (cs ++ [c]) = playTimes cs + Session.playTime c.
Proof.
  unfold playTimes. rewrite map_app. simpl map.
  induction (map Session.playTime cs) as [|x l IH]; [unfold sumZ; simpl; lia|].
  simpl app. rewrite !sumZ_cons, IH. lia.
Qed.



(** *** What a session never changes *)

Lemma unlockIn_definitions (aid : string) (now : Z) (l : list Achievement.t) :
  map definition_of (unlockIn aid now l) = map definition_of l.
Proof.
  induction l as [|a l IH]; [done|].
  rewrite unlockIn_cons. case_decide.
  - by destruct (Achievement.unlocked a).
  - simpl. by rewrite IH.
Qed.

Lemma checkAchievements_definitions (g : GameKind) (s p now : Z) (u : UserProfile.t) :
  map definition_of (UserProfile.globalAchievements (checkAchievements g s p now u)) =
  map definition_of (UserProfile.globalAchievements u).
Proof.
  unfold checkAchievements.
  repeat match goal with
  | |- map _ (UserProfile.globalAchievements (if ?b then _ else _)) = _ =>
      destruct b
  | |- map _ (UserProfile.globalAchievements (match ?k with snake => _ | _ => _ end)) = _ =>
      destruct k
  | |- map _ (UserProfile.globalAchievements (unlockAchievement _ _ _)) = _ =>
      unfold unlockAchievement at 1; simpl UserProfile.globalAchievements at 1;
      rewrite unlockIn_definitions
  end; reflexivity.
Qed.

Lemma recordProfile_definitions (c : Session.t) (u : UserProfile.t) :
  map definition_of (UserProfile.globalAchievements (recordProfile c u)) =
  map definition_of (UserProfile.globalAchievements u).
Proof.
  unfold recordProfile, updateProfile. by rewrite checkAchievements_definitions.
Qed.

(** A profile keeps its identity and its catalog.  Over any run of calls
    on an active profile, [id], [username], [avatar] and [joinDate] are
    unchanged, and so are the number and order of the achievements and
    the [id], [name], [description] and [icon] of each: only [unlocked]
    and [unlockedAt] ever change.  On a profile reached from [createUser]
    the catalog is the eight achievements of [getDefaultAchievements]. *)
Theorem identity_and_catalog_fixed
  (m : Store.t) (u : UserProfile.t) (cs : list Session.t) :
  getCurrentUser m = Some u ->
  exists u', getCurrentUser (recordAll cs m) = Some u' /\
    UserProfile.id u' = UserProfile.id u /\
    UserProfile.username u' = UserProfile.username u /\
    UserProfile.avatar u' = UserProfile.avatar u /\
    UserProfile.joinDate u' = UserProfile.joinDate u /\
    map definition_of (UserProfile.globalAchievements u') =
      map definition_of (UserProfile.globalAchievements u) /\
    length (UserProfile.globalAchievements u') = length (UserProfile.globalAchievements u) /\
    (forall username t0, u = newUser username t0 ->
       map Achievement.id (UserProfile.globalAchievements u') =
         ["first_game"; "speed_demon"; "tetris_master"; "memory_champion";
          "platformer_pro"; "pong_champion"; "dedicated_player"; "game_master"]).
Proof.
  intros E. exists (profileAfter cs u). split; [by apply recordAll_current|].
  assert (UserProfile.id (profileAfter cs u) = UserProfile.id u /\
          UserProfile.username (profileAfter cs u) = UserProfile.username u /\
          UserProfile.avatar (profileAfter cs u) = UserProfile.avatar u /\
          UserProfile.joinDate (profileAfter cs u) = UserProfile.joinDate u /\
          map definition_of (UserProfile.globalAchievements (profileAfter cs u)) =
            map definition_of (UserProfile.globalAchievements u))
    as (H1 & H2 & H3 & H4 & H5).
  { clear E. revert u. induction cs as [|c cs IH]; intros u; [done|].
    change (profileAfter (c :: cs) u) with (profileAfter cs (recordProfile c u)).
    destruct (IH (recordProfile c u)) as (-> & -> & -> & -> & ->).
    rewrite recordProfile_definitions.
    unfold recordProfile, updateProfile. by rewrite checkAchievements_only_list. }
  split_and!; try done.
  - by rewrite <- (length_map definition_of), H5, length_map.
  - intros username t0 ->.
    assert (forall l : list Achievement.t,
              map Achievement.id l = map (fun d => d.1.1.1) (map definition_of l)) as Hid
      by (intros l; rewrite map_map; by apply map_ext).
    by rewrite Hid, H5.
Qed.

Lemma identity_and_catalog_fixed_witness :
  let m := created "Ada" 1 true (Store.mk None true None) in
  let cs := [Session.mk snake 1200 45 2 true; Session.mk memory 3 20 3 true] in
  exists u', getCurrentUser (recordAll cs m) = Some u' /\
    UserProfile.username u' = "Ada" /\ UserProfile.joinDate u' = 1 /\
    length (UserProfile.globalAchievements u') = 8%nat.
Proof.
  intros m cs.
  destruct (identity_and_catalog_fixed m (newUser "Ada" 1) cs eq_refl)
    as (u' & E & _ & Hn & _ & Hj & _ & Hl & _).
  exists u'. split; [exact E|]. split; [exact Hn|]. split; [exact Hj | exact Hl].
Defined.

(** *** Level and experience *)

Lemma gains_cons (c : Session.t) (cs : list Session.t) :
  gains (c :: cs) = experienceGain (Session.score c) (Session.playTime c) + gains cs.
Proof. reflexivity. Qed.

Lemma experience_total (cs : list Session.t) (u : UserProfile.t) :
  UserProfile.experience (profileAfter cs u) = UserProfile.experience u + gains cs.
Proof.
  revert u. induction cs as [|c cs IH]; intros u; [unfold gains; simpl; lia|].
  change (profileAfter (c :: cs) u) with (profileAfter cs (recordProfile c u)).
  rewrite IH, experience_step, gains_cons. unfold experienceGain. lia.
Qed.

Lemma level_follows_experience (cs : list Session.t) (u : UserProfile.t) :
  UserProfile.level u = UserProfile.experience u / 100 + 1 ->
  Forall (fun c => 0 <= Session.score c /\ 0 <= Session.playTime c) cs ->
  UserProfile.level (profileAfter cs u) =
  UserProfile.experience (profileAfter cs u) / 100 + 1.
Proof.
  intros Hu H. revert u Hu. induction H as [|c cs [Hs Hp] _ IH]; intros u Hu; [done|].
  change (profileAfter (c :: cs) u) with (profileAfter cs (recordProfile c u)).
  apply IH. unfold recordProfile. rewrite updateProfile_level. cbv zeta.
  rewrite updateProfile_experience. unfold experienceGain.
  assert (0 <= Session.score c / 10) by (apply Z.div_pos; lia).
  assert (0 <= Session.playTime c / 60) by (apply Z.div_pos; lia).
  assert (UserProfile.experience u / 100 <=
          (UserProfile.experience u + (Session.score c / 10 + Session.playTime c / 60)) / 100)
    by (apply Z.div_le_mono; lia).
  destruct (Z.ltb_spec (UserProfile.level u)
              ((UserProfile.experience u
                + (Session.score c / 10 + Session.playTime c / 60)) / 100 + 1)); lia.
Qed.

(** On a profile reached from [createUser] by a run of calls whose
    scores and play times are safe integers and whose gains, in absolute
    value, add up to at most 2^53 (so that the experience stays a safe
    integer and no quotient or sum of the code rounds), the experience is
    the sum of the gains of the calls and the level is at least 1.  When
    moreover no score and no play time reported is negative, the level is
    exactly [floor (experience / 100) + 1]. *)
Theorem level_is_formula_of_experience
  (m0 : Store.t) (username : string) (t0 : Z) (w0 : bool) (cs : list Session.t) :
  Forall (fun c => safeInteger (Session.score c) /\ safeInteger (Session.playTime c)) cs ->
  sumZ (map (fun c => Z.abs (experienceGain (Session.score c) (Session.playTime c))) cs)
    <= 2 ^ 53 ->
  exists u, getCurrentUser (recordAll cs (created username t0 w0 m0)) = Some u /\
    UserProfile.experience u = gains cs /\
    1 <= UserProfile.level u /\
    (Forall (fun c => 0 <= Session.score c /\ 0 <= Session.playTime c) cs ->
     UserProfile.level u = UserProfile.experience u / 100 + 1).
Proof.
  intros _ _.
  eexists. split; [apply recordAll_current, created_current|]. split_and!.
  - by rewrite experience_total.
  - apply (level_after cs (newUser username t0)).
  - by apply level_follows_experience.
Qed.

Lemma level_is_formula_of_experience_witness :
  let cs := [Session.mk snake 1200 45 2 true; Session.mk memory 995 3000 3 true] in
  exists u, getCurrentUser (recordAll cs (created "Ada" 1 true (Store.mk None true None)))
            = Some u /\
    UserProfile.experience u = 269 /\ UserProfile.level u = 3.
Proof.
  intros cs.
  destruct (level_is_formula_of_experience (Store.mk None true None) "Ada" 1 true cs)
    as (u & E & Hx & _ & Hl);
    [repeat constructor; safe_by_evaluation | vm_compute; discriminate |].
  exists u. split; [exact E|]. split; [exact Hx|].
  rewrite Hl, Hx; [reflexivity|]. repeat constructor; simpl; lia.
Defined.

(** *** Persistence *)

Lemma perform_current (o o' : Op) (m m' : Store.t) :
  Store.currentUser m = Store.currentUser m' ->
  forgetWrite o = forgetWrite o' ->
  Store.currentUser (perform o m) = Store.currentUser (perform o' m').
Proof.
  intros E Ho. destruct o as [n t w|c|], o' as [n' t' w'|c'|]; try discriminate Ho.
  - injection Ho as -> ->. simpl. by rewrite !saveUser_current.
  - injection Ho as Hg Hs Hp Ht. simpl. unfold record, updateGameStats.
    rewrite <- E. destruct (Store.currentUser m) as [u|] eqn:Eu; [|by rewrite <- E].
    rewrite !saveUser_current. simpl. by rewrite Hg, Hs, Hp, Ht.
  - reflexivity.
Qed.

(** The in-memory profile does not depend on the storage.  Two runs of
    the same operations with the same arguments, from stores with the same
    profile, end with the same profile, whether their writes succeed or
    not and whether there is a [window] or not; and an operation whose
    write fails leaves the stored record as it was. *)
Theorem profile_independent_of_writes
  (os os' : list Op) (m m' : Store.t) :
  getCurrentUser m = getCurrentUser m' ->
  map forgetWrite os = map forgetWrite os' ->
  getCurrentUser (performAll os m) = getCurrentUser (performAll os' m') /\
  (forall o, writesOk o = false ->
     Store.localStorage (perform o m) = Store.localStorage m).
Proof.
  unfold getCurrentUser. intros E Hos. split.
  - revert os' m m' E Hos. induction os as [|o os IH]; intros [|o' os'] m m' E Hos;
      try discriminate Hos; [done|].
    injection Hos as Ho Hos. simpl. apply IH; [|done]. by apply perform_current.
  - intros [n t w|c|] Hw; simpl in Hw; [subst w| |done].
    + simpl. unfold saveUser. simpl. by rewrite andb_false_r.
    + simpl. unfold record, updateGameStats, saveUser.
      destruct (Store.currentUser m); [|done]. simpl. by rewrite Hw, andb_false_r.
Qed.

Lemma profile_independent_of_writes_witness :
  let os := [OpCreate "Ada" 1 true; OpRecord (Session.mk snake 1200 45 2 false)] in
  let os' := [OpCreate "Ada" 1 false; OpRecord (Session.mk snake 1200 45 2 true)] in
  getCurrentUser (performAll os (construct true None)) =
  getCurrentUser (performAll os' (construct false None)).
Proof.
  intros os os'.
  apply (profile_independent_of_writes os os' (construct true None) (construct false None));
    reflexivity.
Defined.

Lemma perform_mirrors (o : Op) (m : Store.t) :
  writesOk o = true ->
  Store.hasWindow m = true /\ Store.localStorage m = Store.currentUser m ->
  Store.hasWindow (perform o m) = true /\
  Store.localStorage (perform o m) = Store.currentUser (perform o m).
Proof.
  intros Hw [Hwin Hm]. destruct o as [n t w|c|]; simpl in Hw.
  - subst w. simpl. unfold saveUser. simpl. by rewrite Hwin.
  - simpl. unfold record, updateGameStats, saveUser.
    destruct (Store.currentUser m) as [u|] eqn:E; [|by rewrite E].
    simpl. by rewrite Hwin, Hw.
  - simpl. unfold logout. by rewrite Hwin.
Qed.

(** With a [window] and writes that succeed, the stored record follows
    the profile.  Take a manager whose storage is in step with its
    memory: it holds the serialisation of the profile, or nothing when
    there is no profile (as when the storage was empty at construction).
    After any run of [createUser], [updateGameStats] and [logout] the
    storage holds the serialisation of the in-memory profile as the last
    operation left it, and nothing after a logout.  Whatever the storage
    held before, a [createUser] whose write succeeds and a [logout] put it
    in step. *)
Theorem storage_mirrors_profile (m : Store.t) (os : list Op) :
  Store.hasWindow m = true ->
  Store.localStorage m = getCurrentUser m ->
  forallb writesOk os = true ->
  Store.localStorage (performAll os m) = getCurrentUser (performAll os m) /\
  (forall (m' : Store.t) (username : string) (now : Z),
     Store.hasWindow m' = true ->
     Store.localStorage (perform (OpCreate username now true) m')
       = getCurrentUser (perform (OpCreate username now true) m') /\
     Store.localStorage (perform OpLogout m') = None /\
     getCurrentUser (perform OpLogout m') = None).
Proof.
  unfold getCurrentUser. intros Hwin Hm Hw. split.
  - assert (Store.hasWindow (performAll os m) = true /\
            Store.localStorage (performAll os m) = Store.currentUser (performAll os m))
      as [_ H]; [|exact H].
    revert m Hwin Hm Hw.
    induction os as [|o os IH]; intros m Hwin Hm Hw; [done|].
    simpl in Hw. apply andb_true_iff in Hw as [Ho Hos].
    destruct (perform_mirrors o m Ho (conj Hwin Hm)) as [Hwin' Hm'].
    simpl. by apply IH.
  - intros m' username now Hwin'. split_and!.
    + simpl. unfold saveUser. simpl. by rewrite Hwin'.
    + simpl. by rewrite Hwin'.
    + reflexivity.
Qed.

Lemma storage_mirrors_profile_witness :
  let os := [OpCreate "Ada" 1 true; OpRecord (Session.mk snake 1200 45 2 true);
             OpLogout; OpCreate "Bob" 3 true; OpRecord (Session.mk pong 11 70 4 true)] in
  let m := performAll os (Store.mk None true None) in
  Store.localStorage m = getCurrentUser m.
Proof.
  intros os.
  destruct (storage_mirrors_profile (Store.mk None true None) os) as [H _];
    [reflexivity | reflexivity | reflexivity | exact H].
Defined.

(** Without a [window] the storage is out of reach: the constructor loads
    nothing, even when a record is stored, and no run of operations
    changes the stored record. *)
Theorem storage_untouched_without_window (os : list Op) (m : Store.t) :
  Store.hasWindow m = false ->
  Store.localStorage (performAll os m) = Store.localStorage m /\
  Store.hasWindow (performAll os m) = false /\
  (forall stored, getCurrentUser (construct false stored) = None).
Proof.
  intros Hwin. split_and!; [| |done].
  - revert m Hwin. induction os as [|o os IH]; intros m Hwin; [done|].
    simpl. rewrite IH.
    + destruct o as [n t w|c|]; simpl.
      * unfold saveUser. simpl. by rewrite Hwin.
      * unfold record, updateGameStats, saveUser.
        destruct (Store.currentUser m); [|done]. simpl. by rewrite Hwin.
      * unfold logout. by rewrite Hwin.
    + destruct o as [n t w|c|]; simpl.
      * unfold saveUser. simpl. by rewrite Hwin.
      * unfold record, updateGameStats, saveUser.
        destruct (Store.currentUser m); [|done]. simpl. by rewrite Hwin.
      * done.
  - revert m Hwin. induction os as [|o os IH]; intros m Hwin; [done|].
    simpl. apply IH. destruct o as [n t w|c|]; simpl.
    + unfold saveUser. simpl. by rewrite Hwin.
    + unfold record, updateGameStats, saveUser.
      destruct (Store.currentUser m); [|done]. simpl. by rewrite Hwin.
    + done.
Qed.

Lemma storage_untouched_without_window_witness :
  let stored := Some (newUser "Old" 0) in
  let os := [OpCreate "Ada" 1 true; OpRecord (Session.mk snake 1200 45 2 true); OpLogout] in
  Store.localStorage (performAll os (construct false stored)) = stored.
Proof.
  intros stored os.
  destruct (storage_untouched_without_window os (construct false stored) eq_refl)
    as [H _].
  exact H.
Defined.

(** *** Where the profile stands on the leaderboard *)

Lemma leaderboard_with_entry (e : Entry.t) :
  take 10 (array_sort byScore (mockData ++ [e])) =
  filter (fun x => Entry.score e <= Entry.score x) (array_sort byScore mockData)
  ++ e :: filter (fun x => Entry.score x < Entry.score e) (array_sort byScore mockData).
Proof.
  destruct e as [n s g].
  change (array_sort byScore mockData) with
    [ Entry.mk "JumpHero" 8500 (Some "platformer");
      Entry.mk "TetrisKing" 2500 (Some "tetris");
      Entry.mk "ProGamer123" 1250 (Some "snake");
      Entry.mk "MemoryMaster" 15 (Some "memory");
      Entry.mk "PongChamp" 15 (Some "pong") ].
  rewrite !filter_cons, !filter_nil. unfold mockData, byScore.
  repeat (simpl;
          match goal with
          | |- context [?a <=? ?b] => destruct (Z.leb_spec a b); try lia
          end);
  simpl; repeat case_decide; try lia; reflexivity.
Qed.

(** The leaderboard in full.  Without an entry for the profile it is the
    five built-in entries in the order JumpHero, TetrisKing, ProGamer123,
    MemoryMaster, PongChamp, whatever the game kind asked for.  With one,
    the profile's entry stands after every built-in entry whose score is
    greater than or equal to its own, and before all the others: on a tie
    the profile is ranked below the built-in entry. *)
Theorem leaderboard_ranks_profile_below_ties (m : Store.t) (game : option GameKind) :
  let ranked :=
    [ Entry.mk "JumpHero" 8500 (Some "platformer");
      Entry.mk "TetrisKing" 2500 (Some "tetris");
      Entry.mk "ProGamer123" 1250 (Some "snake");
      Entry.mk "MemoryMaster" 15 (Some "memory");
      Entry.mk "PongChamp" 15 (Some "pong") ] in
  getLeaderboard game m =
  match userEntry game m with
  | [] => ranked
  | e :: _ =>
      filter (fun x => Entry.score e <= Entry.score x) ranked
      ++ e :: filter (fun x => Entry.score x < Entry.score e) ranked
  end.
Proof.
  intros ranked. unfold getLeaderboard. rewrite leaderboardEntries_spec.
  assert (userEntry game m = [] \/ exists e, userEntry game m = [e]) as [->|[e ->]].
  { unfold userEntry. repeat case_match; eauto. }
  - reflexivity.
  - apply leaderboard_with_entry.
Qed.

(** *** Statistics of one game kind *)

Lemma timesOf_cons (g : GameKind) (c : Session.t) (cs : list Session.t) :
  timesOf g (c :: cs) =
  if decide (Session.game c = g) then Session.now c :: timesOf g cs else timesOf g cs.
Proof. unfold timesOf. rewrite filter_cons. by case_decide. Qed.

Lemma lastPlayed_after (g : GameKind) (cs : list Session.t) (u : UserProfile.t) :
  GameStats.lastPlayed (statsOf g (profileAfter cs u)) =
  match last (timesOf g cs) with
  | Some t => Some t
  | None => GameStats.lastPlayed (statsOf g u)
  end.
Proof.
  revert u. induction cs as [|c cs IH]; intros u; [done|].
  change (profileAfter (c :: cs) u) with (profileAfter cs (recordProfile c u)).
  rewrite IH, timesOf_cons, statsOf_record. case_decide; [|done].
  rewrite last_cons. by destruct (last (timesOf g cs)).
Qed.

(** [lastPlayed] is the time of the latest call for the game kind.  On a
    profile reached from [createUser] by a run of calls it is the time of
    the last call of the run made for that kind, and it is absent exactly
    when the kind has no game played. *)
Theorem lastPlayed_is_latest_call
  (m0 : Store.t) (username : string) (t0 : Z) (w0 : bool)
  (cs : list Session.t) (g : GameKind) :
  exists u, getCurrentUser (recordAll cs (created username t0 w0 m0)) = Some u /\
    GameStats.lastPlayed (statsOf g u) = last (timesOf g cs) /\
    (GameStats.lastPlayed (statsOf g u) = None <->
     GameStats.gamesPlayed (statsOf g u) = 0).
Proof.
  eexists. split; [apply recordAll_current, created_current|].
  rewrite lastPlayed_after, gamesPlayed_after, statsOf_newUser.
  split; [by destruct (last (timesOf g cs))|].
  unfold timesOf, scoresOf. rewrite length_map. simpl.
  destruct (filter _ cs) as [|c l]; [done|].
  cbn [map]. rewrite last_cons. simpl length.
  split; [by destruct (last (map Session.now l)) | lia].
Qed.

(** ** Properties of the game engine helpers *)

(** *** [Utils.clamp] *)

(** [clamp] with bounds in order returns a value between them: the
    value itself when it lies between them, the nearer bound otherwise;
    clamping twice is clamping once.  With the bounds the wrong way round
    ([max < min]) it returns [min], whatever the value. *)
Theorem clamp_between_bounds (value min max : Z) :
  (min <= max ->
     min <= Utils.clamp value min max <= max /\
     (min <= value <= max -> Utils.clamp value min max = value) /\
     (value < min -> Utils.clamp value min max = min) /\
     (max < value -> Utils.clamp value min max = max) /\
     Utils.clamp (Utils.clamp value min max) min max = Utils.clamp value min max) /\
  (max < min -> Utils.clamp value min max = min).
Proof. unfold Utils.clamp. lia. Qed.

Lemma clamp_between_bounds_witness :
  Utils.clamp 17 0 10 = 10 /\ Utils.clamp 5 0 10 = 5 /\ Utils.clamp 5 10 0 = 10.
Proof.
  destruct (clamp_between_bounds 17 0 10) as [H _].
  destruct (H ltac:(lia)) as (_ & _ & _ & Hhi & _).
  destruct (clamp_between_bounds 5 0 10) as [H' _].
  destruct (H' ltac:(lia)) as (_ & Hin & _).
  destruct (clamp_between_bounds 5 10 0) as [_ Hinv].
  split; [apply Hhi; lia|]. split; [apply Hin; lia | apply Hinv; lia].
Defined.

(** *** [CollisionDetector] *)

Lemma rectIntersect_true (r1 r2 : Rect.t) :
  CollisionDetector.rectIntersect r1 r2 = true <->
  Rect.x r1 < Rect.x r2 + Rect.width r2 /\ Rect.x r2 < Rect.x r1 + Rect.width r1 /\
  Rect.y r1 < Rect.y r2 + Rect.height r2 /\ Rect.y r2 < Rect.y r1 + Rect.height r1.
Proof.
  unfold CollisionDetector.rectIntersect.
  rewrite !andb_true_iff, !Z.ltb_lt. tauto.
Qed.

Lemma pointInRect_true (p : Point.t) (r : Rect.t) :
  CollisionDetector.pointInRect p r = true <->
  Rect.x r <= Point.x p <= Rect.x r + Rect.width r /\
  Rect.y r <= Point.y p <= Rect.y r + Rect.height r.
Proof.
  unfold CollisionDetector.pointInRect.
  rewrite !andb_true_iff, !Z.leb_le. tauto.
Qed.

(** [rectIntersect] does not depend on the order of its arguments; and a
    rectangle whose coordinates, sizes and far edges are safe integers
    intersects itself exactly when its width and its height are
    positive. *)
Theorem rectIntersect_symmetric (r1 r2 : Rect.t) :
  CollisionDetector.rectIntersect r1 r2 = CollisionDetector.rectIntersect r2 r1 /\
  (safeRect r1 ->
   (CollisionDetector.rectIntersect r1 r1 = true <->
      0 < Rect.width r1 /\ 0 < Rect.height r1)).
Proof.
  split.
  - apply eq_true_iff_eq. rewrite !rectIntersect_true. tauto.
  - intros _. rewrite rectIntersect_true. lia.
Qed.

Lemma rectIntersect_symmetric_witness :
  CollisionDetector.rectIntersect (Rect.mk 3 4 10 10) (Rect.mk 3 4 10 10) = true /\
  CollisionDetector.rectIntersect (Rect.mk 0 0 10 10) (Rect.mk 9 9 5 5) =
  CollisionDetector.rectIntersect (Rect.mk 9 9 5 5) (Rect.mk 0 0 10 10).
Proof.
  destruct (rectIntersect_symmetric (Rect.mk 3 4 10 10) (Rect.mk 3 4 10 10)) as [_ H].
  destruct (rectIntersect_symmetric (Rect.mk 0 0 10 10) (Rect.mk 9 9 5 5)) as [Hs _].
  split; [|exact Hs].
  apply H; [safe_by_evaluation | simpl; lia].
Defined.

(** On the integer grid, two rectangles of positive width and height
    whose coordinates, sizes and far edges are safe integers intersect
    exactly when they have a unit cell in common: a cell
    [cx, cx + 1] x [cy, cy + 1] that lies within both. *)
Theorem rectIntersect_iff_common_cell (r1 r2 : Rect.t) :
  safeRect r1 -> safeRect r2 ->
  0 < Rect.width r1 -> 0 < Rect.height r1 ->
  0 < Rect.width r2 -> 0 < Rect.height r2 ->
  (CollisionDetector.rectIntersect r1 r2 = true <->
   exists cx cy,
     Rect.x r1 <= cx /\ cx + 1 <= Rect.x r1 + Rect.width r1 /\
     Rect.y r1 <= cy /\ cy + 1 <= Rect.y r1 + Rect.height r1 /\
     Rect.x r2 <= cx /\ cx + 1 <= Rect.x r2 + Rect.width r2 /\
     Rect.y r2 <= cy /\ cy + 1 <= Rect.y r2 + Rect.height r2).
Proof.
  intros _ _ W1 H1 W2 H2. rewrite rectIntersect_true. split.
  - intros (A & B & C & D).
    exists (Z.max (Rect.x r1) (Rect.x r2)), (Z.max (Rect.y r1) (Rect.y r2)). lia.
  - intros (cx & cy & H). lia.
Qed.

Lemma rectIntersect_iff_common_cell_witness :
  CollisionDetector.rectIntersect (Rect.mk 0 0 10 10) (Rect.mk 9 9 5 5) = true /\
  CollisionDetector.rectIntersect (Rect.mk 0 0 10 10) (Rect.mk 10 0 5 5) = false.
Proof.
  split.
  - apply (rectIntersect_iff_common_cell (Rect.mk 0 0 10 10) (Rect.mk 9 9 5 5));
      [safe_by_evaluation | safe_by_evaluation | simpl; lia .. |].
    exists 9, 9. simpl. lia.
  - apply not_true_is_false.
    rewrite (rectIntersect_iff_common_cell (Rect.mk 0 0 10 10) (Rect.mk 10 0 5 5));
      [| safe_by_evaluation | safe_by_evaluation | simpl; lia ..].
    intros (cx & cy & H). simpl in H. lia.
Defined.

(** The point test includes the border and the rectangle test does not.
    Take rectangles whose coordinates, sizes and far edges are safe
    integers.  For a rectangle of non-negative width and height its four
    corners pass [pointInRect]; when the width or the height is negative
    no point does.  Two rectangles of which the second starts where the
    first ends ([rect2.x = rect1.x + rect1.width]) do not intersect, and
    a point that passes [pointInRect] for both lies on that common
    edge. *)
Theorem border_included_by_point_test_only (r1 r2 : Rect.t) (p : Point.t) :
  safeRect r1 -> safeRect r2 ->
  (0 <= Rect.width r1 -> 0 <= Rect.height r1 ->
     CollisionDetector.pointInRect (Point.mk (Rect.x r1) (Rect.y r1)) r1 = true /\
     CollisionDetector.pointInRect
       (Point.mk (Rect.x r1 + Rect.width r1) (Rect.y r1)) r1 = true /\
     CollisionDetector.pointInRect
       (Point.mk (Rect.x r1) (Rect.y r1 + Rect.height r1)) r1 = true /\
     CollisionDetector.pointInRect
       (Point.mk (Rect.x r1 + Rect.width r1) (Rect.y r1 + Rect.height r1)) r1 = true) /\
  (Rect.width r1 < 0 \/ Rect.height r1 < 0 ->
     CollisionDetector.pointInRect p r1 = false) /\
  (Rect.x r2 = Rect.x r1 + Rect.width r1 ->
     CollisionDetector.rectIntersect r1 r2 = false /\
     (CollisionDetector.pointInRect p r1 = true ->
      CollisionDetector.pointInRect p r2 = true ->
      Point.x p = Rect.x r2)).
Proof.
  intros _ _. split_and!.
  - intros W H. rewrite !pointInRect_true. simpl. lia.
  - intros H. apply not_true_is_false. rewrite pointInRect_true. lia.
  - intros E. split.
    + apply not_true_is_false. rewrite rectIntersect_true. lia.
    + rewrite !pointInRect_true. lia.
Qed.

Lemma border_included_by_point_test_only_witness :
  let r1 := Rect.mk 0 0 10 10 in
  let r2 := Rect.mk 10 0 5 5 in
  let p := Point.mk 10 3 in
  CollisionDetector.rectIntersect r1 r2 = false /\
  CollisionDetector.pointInRect p r1 = true /\
  CollisionDetector.pointInRect p r2 = true /\
  CollisionDetector.pointInRect (Point.mk 10 10) r1 = true.
Proof.
  intros r1 r2 p.
  destruct (border_included_by_point_test_only r1 r2 p) as (Hc & _ & Ht);
    [unfold r1; safe_by_evaluation | unfold r2; safe_by_evaluation |].
  destruct (Ht eq_refl) as [Hno _].
  destruct (Hc ltac:(simpl; lia) ltac:(simpl; lia)) as (_ & _ & _ & Hcorner).
  split; [exact Hno|]. split; [reflexivity|]. split; [reflexivity | exact Hcorner].
Defined.

(** A rectangle test that passes guarantees a common point only for
    rectangles of non-negative size: then the point whose coordinates are
    the greater of the two left edges and the greater of the two top edges
    passes [pointInRect] for both. *)
Theorem rectIntersect_gives_common_point (r1 r2 : Rect.t) :
  0 <= Rect.width r1 -> 0 <= Rect.height r1 ->
  0 <= Rect.width r2 -> 0 <= Rect.height r2 ->
  CollisionDetector.rectIntersect r1 r2 = true ->
  let p := Point.mk (Z.max (Rect.x r1) (Rect.x r2)) (Z.max (Rect.y r1) (Rect.y r2)) in
  CollisionDetector.pointInRect p r1 = true /\ CollisionDetector.pointInRect p r2 = true.
Proof.
  intros W1 H1 W2 H2 HI p. apply rectIntersect_true in HI.
  rewrite !pointInRect_true. unfold p. simpl. lia.
Qed.

Lemma rectIntersect_gives_common_point_witness :
  CollisionDetector.pointInRect (Point.mk 9 9) (Rect.mk 0 0 10 10) = true /\
  CollisionDetector.pointInRect (Point.mk 9 9) (Rect.mk 9 9 5 5) = true.
Proof.
  apply (rectIntersect_gives_common_point (Rect.mk 0 0 10 10) (Rect.mk 9 9 5 5));
    simpl; try lia. reflexivity.
Defined.

(** *** [InputManager] *)

Lemma handle_unconcerned (key : string) (e : InputManager.Event) (s : InputManager.t) :
  InputManager.concerns key e = false ->
  InputManager.isKeyPressed key (InputManager.handle e s) =
  InputManager.isKeyPressed key s.
Proof.
  unfold InputManager.isKeyPressed.
  destruct e as [code|code| | |]; simpl; intros H; try done.
  - apply bool_decide_eq_false in H. apply bool_decide_ext.
    rewrite elem_of_union, elem_of_singleton.
    split; [intros [E|Hin]; [by subst | done] | by right].
  - apply bool_decide_eq_false in H. apply bool_decide_ext.
    rewrite elem_of_difference, elem_of_singleton.
    split; [by intros [Hin _] | intros Hin; split; [done | congruence]].
Qed.

Lemma handle_concerned (key : string) (e : InputManager.Event) (s : InputManager.t) :
  InputManager.concerns key e = true ->
  InputManager.isKeyPressed key (InputManager.handle e s) = InputManager.isKeyDown e.
Proof.
  unfold InputManager.isKeyPressed.
  destruct e as [code|code| | |]; simpl; intros H; try done.
  - apply bool_decide_eq_true in H. subst. apply bool_decide_eq_true.
    rewrite elem_of_union, elem_of_singleton. by left.
  - apply bool_decide_eq_true in H. subst. apply bool_decide_eq_false.
    rewrite elem_of_difference, elem_of_singleton. by intros [_ Hne].
Qed.

Lemma handleAll_unconcerned (key : string) (es : list InputManager.Event)
  (s : InputManager.t) :
  forallb (fun e => negb (InputManager.concerns key e)) es = true ->
  InputManager.isKeyPressed key (InputManager.handleAll es s) =
  InputManager.isKeyPressed key s.
Proof.
  revert s. induction es as [|e es IH]; intros s H; [done|].
  simpl in H. apply andb_true_iff in H as [He Hes]. apply negb_true_iff in He.
  simpl. rewrite IH by done. by apply handle_unconcerned.
Qed.

(** A key is held exactly when the last event about it was its
    [keydown].  After any events, [isKeyPressed key] is decided by the
    last event among the [keydown] and [keyup] of that key and the calls
    of [clear]: true if it is the [keydown], false otherwise; touch events
    and the events of other keys change nothing, and a key nothing was
    said about since the construction is not held. *)
Theorem key_pressed_by_last_event
  (key : string) (before after : list InputManager.Event) (e : InputManager.Event)
  (s : InputManager.t) :
  forallb (fun e => negb (InputManager.concerns key e)) after = true ->
  (InputManager.concerns key e = true ->
   InputManager.isKeyPressed key (InputManager.handleAll (before ++ e :: after) s) =
   InputManager.isKeyDown e) /\
  InputManager.isKeyPressed key (InputManager.handleAll after s) =
    InputManager.isKeyPressed key s /\
  InputManager.isKeyPressed key (InputManager.handleAll after InputManager.create) = false.
Proof.
  intros Hafter. split_and!.
  - intros He. unfold InputManager.handleAll. rewrite fold_left_app. simpl.
    fold (InputManager.handleAll before s).
    fold (InputManager.handleAll after
            (InputManager.handle e (InputManager.handleAll before s))).
    rewrite handleAll_unconcerned by done. by apply handle_concerned.
  - by apply handleAll_unconcerned.
  - rewrite handleAll_unconcerned by done. reflexivity.
Qed.

Lemma key_pressed_by_last_event_witness :
  let es := [InputManager.KeyDown "ArrowUp"; InputManager.KeyUp "ArrowUp";
             InputManager.KeyDown "ArrowUp";
             InputManager.KeyDown "Space";
             InputManager.TouchEnd []; InputManager.KeyUp "Space"] in
  InputManager.isKeyPressed "ArrowUp" (InputManager.handleAll es InputManager.create) = true.
Proof.
  intros es.
  destruct (key_pressed_by_last_event "ArrowUp"
              [InputManager.KeyDown "ArrowUp"; InputManager.KeyUp "ArrowUp"]
              [InputManager.KeyDown "Space"; InputManager.TouchEnd [];
               InputManager.KeyUp "Space"]
              (InputManager.KeyDown "ArrowUp") InputManager.create eq_refl)
    as [H _].
  exact (H eq_refl).
Defined.


Lemma map_set_ids (k : Z) (v : Point.t) (l : list (Z * Point.t)) :
  map fst (InputManager.map_set k v l) =
  if decide (k ∈ map fst l) then map fst l else map fst l ++ [k].
Proof.
  induction l as [|[k' v'] l IH]; cbn [InputManager.map_set map fst].
  - by rewrite decide_False by apply not_elem_of_nil.
  - destruct (decide (k' = k)) as [->|Hne]; cbn [map fst].
    + by rewrite decide_True by left.
    + rewrite IH. destruct (decide (k ∈ map fst l)) as [Hin|Hnin].
      * by rewrite decide_True by by right.
      * rewrite decide_False; [done|].
        intros [?|?]%elem_of_cons; [congruence | done].
Qed.

Lemma map_set_NoDup (k : Z) (v : Point.t) (l : list (Z * Point.t)) :
  NoDup (map fst l) -> NoDup (map fst (InputManager.map_set k v l)).
Proof.
  intros H. rewrite map_set_ids. case_decide as Hin; [done|].
  apply NoDup_app. split_and!; [done | | apply NoDup_singleton].
  intros x Hx ->%list_elem_of_singleton. done.
Qed.

Lemma map_delete_ids (k : Z) (l : list (Z * Point.t)) :
  map fst (InputManager.map_delete k l) = filter (fun i => i <> k) (map fst l).
Proof.
  unfold InputManager.map_delete. induction l as [|[k' v'] l IH]; [done|].
  rewrite filter_cons. cbn [map fst]. rewrite filter_cons.
  destruct (decide (k' <> k)); cbn [map fst]; by rewrite IH.
Qed.

Lemma handle_NoDup (e : InputManager.Event) (s : InputManager.t) :
  NoDup (InputManager.activeIds s) ->
  NoDup (InputManager.activeIds (InputManager.handle e s)).
Proof.
  unfold InputManager.activeIds.
  destruct e as [code|code|l t ts|ts|]; simpl; try done.
  - generalize (InputManager.touches s).
    induction ts as [|τ ts IH]; intros m H; simpl; [done|].
    apply IH. by apply map_set_NoDup.
  - generalize (InputManager.touches s).
    induction ts as [|τ ts IH]; intros m H; simpl; [done|].
    apply IH. rewrite map_delete_ids. by apply NoDup_filter.
  - intros _. apply NoDup_nil_2.
Qed.

(** No finger is listed twice.  After any events the active touches have
    pairwise distinct identifiers, and [getTouches] returns one point for
    each of them. *)
Theorem touches_have_distinct_identifiers (es : list InputManager.Event) :
  let s := InputManager.handleAll es InputManager.create in
  NoDup (InputManager.activeIds s) /\
  length (InputManager.getTouches s) = length (InputManager.activeIds s).
Proof.
  intros s. split.
  - unfold s. assert (NoDup (InputManager.activeIds InputManager.create)) as H0
      by apply NoDup_nil_2.
    revert H0. generalize InputManager.create.
    induction es as [|e es IH]; intros s0 H0; [done|].
    simpl. apply IH. by apply handle_NoDup.
  - unfold InputManager.getTouches, InputManager.activeIds. by rewrite !length_map.
Qed.

Lemma map_set_app (k : Z) (v : Point.t) (l r : list (Z * Point.t)) :
  k ∉ map fst l ->
  InputManager.map_set k v (l ++ r) = l ++ InputManager.map_set k v r.
Proof.
  induction l as [|[k' v'] l IH]; intros Hk; [done|].
  cbn [map fst] in Hk. apply not_elem_of_cons in Hk as [Hne Hk].
  cbn [app InputManager.map_set]. rewrite decide_False by congruence.
  by rewrite IH.
Qed.

Lemma map_delete_app (k : Z) (l r : list (Z * Point.t)) :
  k ∉ map fst l ->
  InputManager.map_delete k (l ++ r) = l ++ InputManager.map_delete k r.
Proof.
  unfold InputManager.map_delete. intros Hk. rewrite filter_app. f_equal.
  induction l as [|[k' v'] l IH]; [done|].
  cbn [map fst] in Hk. apply not_elem_of_cons in Hk as [Hne Hk].
  rewrite filter_cons. cbn [fst]. rewrite decide_True by congruence.
  by rewrite IH.
Qed.

Lemma set_all_app (rl rt : Z) (ts : list Touch.t) (l r : list (Z * Point.t)) :
  (forall τ, τ ∈ ts -> Touch.identifier τ ∉ map fst l) ->
  fold_left
    (fun m touch =>
       InputManager.map_set (Touch.identifier touch)
         (Point.mk (Touch.clientX touch - rl) (Touch.clientY touch - rt)) m)
    ts (l ++ r) =
  l ++ fold_left
         (fun m touch =>
            InputManager.map_set (Touch.identifier touch)
              (Point.mk (Touch.clientX touch - rl) (Touch.clientY touch - rt)) m)
         ts r.
Proof.
  revert r. induction ts as [|τ ts IH]; intros r H; [done|].
  simpl. rewrite map_set_app by (apply H; left). apply IH.
  intros τ' Hin. apply H. by right.
Qed.

Lemma delete_all_app (ts : list Touch.t) (l r : list (Z * Point.t)) :
  (forall τ, τ ∈ ts -> Touch.identifier τ ∉ map fst l) ->
  fold_left (fun m touch => InputManager.map_delete (Touch.identifier touch) m)
    ts (l ++ r) =
  l ++ fold_left (fun m touch => InputManager.map_delete (Touch.identifier touch) m) ts r.
Proof.
  revert r. induction ts as [|τ ts IH]; intros r H; [done|].
  simpl. rewrite map_delete_app by (apply H; left). apply IH.
  intros τ' Hin. apply H. by right.
Qed.

Lemma set_all_ids (rl rt : Z) (ts : list Touch.t) (r : list (Z * Point.t)) (i : Z) :
  i ∈ map fst
        (fold_left
           (fun m touch =>
              InputManager.map_set (Touch.identifier touch)
                (Point.mk (Touch.clientX touch - rl) (Touch.clientY touch - rt)) m)
           ts r) <->
  i ∈ map fst r \/ i ∈ map Touch.identifier ts.
Proof.
  revert r. induction ts as [|τ ts IH]; intros r.
  - simpl. split; [by left | intros [?|H]; [done | by apply not_elem_of_nil in H]].
  - cbn [fold_left map]. rewrite IH, map_set_ids, elem_of_cons.
    case_decide as Hin.
    + split; [tauto | intros [?|[->|?]]; tauto].
    + rewrite elem_of_app, list_elem_of_singleton. tauto.
Qed.

Lemma delete_all_covered (ts : list Touch.t) (r : list (Z * Point.t)) :
  (forall i, i ∈ map fst r -> i ∈ map Touch.identifier ts) ->
  fold_left (fun m touch => InputManager.map_delete (Touch.identifier touch) m) ts r = [].
Proof.
  revert r. induction ts as [|τ ts IH]; intros r H.
  - destruct r as [|[k v] r]; [done|].
    specialize (H k ltac:(left)). by apply not_elem_of_nil in H.
  - simpl. apply IH. intros i. rewrite map_delete_ids, list_elem_of_filter.
    intros [Hne Hin]. specialize (H i Hin). cbn [map] in H.
    apply elem_of_cons in H as [?|?]; [congruence | done].
Qed.

(** Touching and lifting fingers that were not down before leaves the
    manager as it was.  After a [touchstart] every finger of its
    [changedTouches] is active; and when none of them was active before,
    the [touchend] with the same [changedTouches] restores the state,
    points and order of the other touches included. *)
Theorem touch_start_then_end_restores
  (s : InputManager.t) (rectLeft rectTop : Z) (ts : list Touch.t) :
  (forall τ, τ ∈ ts -> Touch.identifier τ ∉ InputManager.activeIds s) ->
  let s1 := InputManager.handle (InputManager.TouchStart rectLeft rectTop ts) s in
  (forall τ, τ ∈ ts -> Touch.identifier τ ∈ InputManager.activeIds s1) /\
  InputManager.handle (InputManager.TouchEnd ts) s1 = s.
Proof.
  intros Hnew s1. split.
  - intros τ Hin. unfold s1, InputManager.activeIds. simpl.
    apply set_all_ids. right. by apply list_elem_of_fmap_2.
  - unfold s1. destruct s as [ks m]. unfold InputManager.activeIds in Hnew.
    simpl in *. f_equal.
    rewrite <- (app_nil_r m) at 1.
    rewrite set_all_app, delete_all_app by done.
    rewrite delete_all_covered; [apply app_nil_r|].
    intros i Hi. apply set_all_ids in Hi as [Hi|Hi]; [|done].
    by apply not_elem_of_nil in Hi.
Qed.

Lemma touch_start_then_end_restores_witness :
  let s := InputManager.handleAll
             [InputManager.KeyDown "Space";
              InputManager.TouchStart 10 20 [Touch.mk 1 110 220]]
             InputManager.create in
  let ts := [Touch.mk 2 15 25; Touch.mk 3 30 40] in
  InputManager.getTouches s = [Point.mk 100 200] /\
  InputManager.getTouches (InputManager.handle (InputManager.TouchStart 10 20 ts) s)
    = [Point.mk 100 200; Point.mk 5 5; Point.mk 20 20] /\
  InputManager.handle (InputManager.TouchEnd ts)
    (InputManager.handle (InputManager.TouchStart 10 20 ts) s) = s.
Proof.
  intros s ts. split; [reflexivity|]. split; [reflexivity|].
  apply (touch_start_then_end_restores s 10 20 ts).
  intros τ Hin. unfold s, InputManager.activeIds. simpl.
  rewrite list_elem_of_singleton.
  apply elem_of_cons in Hin as [->|Hin]; [simpl; lia|].
  apply list_elem_of_singleton in Hin as ->. simpl. lia.
Defined.
